(** * memu: record models, hashing, scope composition and tool-call ledger

    A shallow embedding of [src/memu/database/models.py] and
    [src/memu/utils/tool.py], with the properties of the design document
    stated and proved over it.

    Conventions of the embedding.
    - A Python [str] is a Rocq [string]; each character is read as the
      code point of the same number (U+0000 .. U+00FF).  [encode] is
      UTF-8 on that range, [lower] and [split] follow CPython on it.
    - A Python [float] is a rational ([Q]); sums and quotients are exact,
      [round(x, n)] rounds the exact value half-to-even to [n] decimals.
    - A Python [int] is [Z].
    - A [dict] whose insertion order is observable (JSON payloads, dumped
      records) is an association list in insertion order; [item.extra],
      which is only read and written by key, is a [gmap].
    - An exception is a value of [exn]; a function that can raise returns
      [result].  Functions that mutate their arguments return the new
      objects next to the outcome.
    - Lists are values: the identity of a list object is not tracked. *)

From Stdlib Require Import Ascii String DecimalString ZArith QArith Qround Qabs
  Lia Lqa.
From stdpp Require Import base option list sorting gmap strings.

#[local] Open Scope Z_scope.

(** ** Python strings on the code points U+0000 .. U+00FF *)

Module PyStr.

Definition ord (c : ascii) : Z := Z.of_N (Ascii.N_of_ascii c).
Definition chr (n : Z) : ascii := Ascii.ascii_of_N (Z.to_N n).

(** [str.isspace] of one character, which is also the separator test of
    [str.split()] without arguments. *)
Definition isspace (c : ascii) : bool :=
  let n := ord c in
  (9 <=? n) && (n <=? 13) || (28 <=? n) && (n <=? 32)
  || (n =? 133) || (n =? 160).

(** [str.lower] of one character: A-Z, and the Latin-1 capitals
    U+00C0 .. U+00DE except the multiplication sign U+00D7. *)
Definition lower_char (c : ascii) : ascii :=
  let n := ord c in
  if (65 <=? n) && (n <=? 90) then chr (n + 32)
  else if (192 <=? n) && (n <=? 222) && negb (n =? 215) then chr (n + 32)
  else c.

Fixpoint lower (s : string) : string :=
  match s with
  | EmptyString => EmptyString
  | String c s' => String (lower_char c) (lower s')
  end.

(** [s.split()]: maximal runs of non-space characters, in order.  [cur]
    is the word being read. *)
Definition flush (cur : string) : list string :=
  match cur with EmptyString => [] | _ => [cur] end.

Fixpoint split_from (cur s : string) : list string :=
  match s with
  | EmptyString => flush cur
  | String c s' =>
      if isspace c then flush cur ++ split_from EmptyString s'
      else split_from (cur +:+ String c EmptyString) s'
  end.

Definition split (s : string) : list string := split_from EmptyString s.

(** [sep.join(parts)] *)
Fixpoint join (sep : string) (parts : list string) : string :=
  match parts with
  | [] => EmptyString
  | [p] => p
  | p :: ps => p +:+ sep +:+ join sep ps
  end.

(** [s.encode("utf-8")] as a list of byte values. *)
Definition encode_char (c : ascii) : list Z :=
  let n := ord c in
  if n <? 128 then [n]
  else [Z.lor 192 (Z.shiftr n 6); Z.lor 128 (Z.land n 63)].

Fixpoint encode (s : string) : list Z :=
  match s with
  | EmptyString => []
  | String c s' => encode_char c ++ encode s'
  end.

(** The wording of the design document for the normal form of a summary:
    trimmed, and every internal run of whitespace collapsed to one
    space.  [collapse after_space s] drops a space that follows one. *)
Fixpoint lstrip (s : string) : string :=
  match s with
  | EmptyString => EmptyString
  | String c s' => if isspace c then lstrip s' else s
  end.

Fixpoint rstrip (s : string) : string :=
  match s with
  | EmptyString => EmptyString
  | String c s' =>
      match rstrip s' with
      | EmptyString => if isspace c then EmptyString else String c EmptyString
      | r => String c r
      end
  end.

Definition strip (s : string) : string := rstrip (lstrip s).

Fixpoint collapse (after_space : bool) (s : string) : string :=
  match s with
  | EmptyString => EmptyString
  | String c s' =>
      if isspace c
      then (if after_space then collapse true s'
            else String " "%char (collapse true s'))
      else String c (collapse false s')
  end.

(** A text laid out as words and separators: [pre], then each word followed
    by its separator.  In a well-formed layout a word is not empty and has
    no whitespace, a separator is whitespace, and only the last separator
    may be empty. *)
Fixpoint all_space (s : string) : bool :=
  match s with
  | EmptyString => true
  | String c s' => isspace c && all_space s'
  end.

Fixpoint no_space (s : string) : bool :=
  match s with
  | EmptyString => true
  | String c s' => negb (isspace c) && no_space s'
  end.

Fixpoint layout_parts (parts : list (string * string)) : string :=
  match parts with
  | [] => EmptyString
  | (w, sep) :: parts' => w +:+ sep +:+ layout_parts parts'
  end.

Definition layout (pre : string) (parts : list (string * string)) : string :=
  pre +:+ layout_parts parts.

Fixpoint wf_parts (parts : list (string * string)) : Prop :=
  match parts with
  | [] => True
  | (w, sep) :: parts' =>
      w <> EmptyString /\ no_space w = true /\ all_space sep = true /\
      (parts' <> [] -> sep <> EmptyString) /\ wf_parts parts'
  end.

(** The first character of a UTF-8 byte list, and the bytes after it. *)
Definition decode_char (bs : list Z) : option (ascii * list Z) :=
  match bs with
  | [] => None
  | b :: bs' =>
      if b <? 128 then Some (chr b, bs')
      else match bs' with
           | [] => None
           | b2 :: bs'' =>
               Some (chr (Z.lor (Z.shiftl (Z.land b 3) 6) (Z.land b2 63)),
                     bs'')
           end
  end.

End PyStr.

(** ** hashlib: MD5 and SHA-256 over byte lists *)

Module Hashlib.

Definition w32 (x : Z) : Z := Z.land x 0xffffffff.
Definition add32 (a b : Z) : Z := w32 (a + b).
Definition rotl (n x : Z) : Z :=
  w32 (Z.lor (Z.shiftl x n) (Z.shiftr (w32 x) (32 - n))).
Definition rotr (n x : Z) : Z := rotl (32 - n) x.
Definition not32 (x : Z) : Z := Z.lxor (w32 x) 0xffffffff.

Definition byte_at (k x : Z) : Z := Z.land (Z.shiftr x (8 * k)) 255.

Definition be32 (x : Z) : list Z :=
  [byte_at 3 x; byte_at 2 x; byte_at 1 x; byte_at 0 x].
Definition le32 (x : Z) : list Z :=
  [byte_at 0 x; byte_at 1 x; byte_at 2 x; byte_at 3 x].
Definition le64 (x : Z) : list Z := le32 x ++ le32 (Z.shiftr x 32).
Definition be64 (x : Z) : list Z := be32 (Z.shiftr x 32) ++ be32 x.

Definition of_be (bs : list Z) : Z :=
  fold_left (fun acc b => Z.lor (Z.shiftl acc 8) b) bs 0.
Definition of_le (bs : list Z) : Z := of_be (rev bs).

(** Cut a list into consecutive pieces of [k] elements. *)
Fixpoint chunks_fuel {A} (fuel k : nat) (l : list A) : list (list A) :=
  match fuel, l with
  | O, _ | _, [] => []
  | S fuel', _ => take k l :: chunks_fuel fuel' k (drop k l)
  end.
Definition chunks {A} (k : nat) (l : list A) : list (list A) :=
  chunks_fuel (length l) k l.

(** Message padding: a one bit, zeros up to 56 modulo 64, then the bit
    length in eight bytes. *)
Definition pad (len64 : Z -> list Z) (msg : list Z) : list Z :=
  let n := Z.of_nat (length msg) in
  msg ++ [128] ++ repeat 0 (Z.to_nat ((55 - n) mod 64)) ++ len64 (8 * n).

Definition hexdigit (n : Z) : ascii :=
  nth (Z.to_nat (n mod 16))
    ["0"; "1"; "2"; "3"; "4"; "5"; "6"; "7";
     "8"; "9"; "a"; "b"; "c"; "d"; "e"; "f"]%char "0"%char.

Definition hex_of_byte (b : Z) : list ascii :=
  [hexdigit (Z.shiftr b 4); hexdigit b].

Definition hex (bs : list Z) : string :=
  string_of_list_ascii (flat_map hex_of_byte bs).

(** *** SHA-256 (FIPS 180-4) *)

(** The round constants are the first 32 bits of the fractional parts of
    the cube roots of the first 64 primes, the initial state those of the
    square roots of the first 8 primes. *)
Definition is_prime (n : Z) : bool :=
  (2 <=? n)
  && forallb (fun d => negb (n mod Z.of_nat d =? 0)) (seq 2 (Z.to_nat n - 2)).

Definition primes_below (bound : nat) : list Z :=
  List.filter is_prime (map Z.of_nat (seq 0 bound)).

(** The integer cube root of [n], found bit by bit from bit [bits - 1]. *)
Fixpoint cube_root (bits : nat) (n r : Z) : Z :=
  match bits with
  | O => r
  | S bits' =>
      let c := r + 2 ^ Z.of_nat bits' in
      if c * c * c <=? n then cube_root bits' n c else cube_root bits' n r
  end.

Definition sha256_K : list Z :=
  Eval vm_compute in
    map (fun p => w32 (cube_root 35 (p * 2 ^ 96) 0)) (primes_below 312).

Definition sha256_state : Type := Z * Z * Z * Z * Z * Z * Z * Z.

Definition sha256_init : sha256_state :=
  Eval vm_compute in
    let h (p : Z) := w32 (Z.sqrt (p * 2 ^ 64)) in
    (h 2, h 3, h 5, h 7, h 11, h 13, h 17, h 19).

Definition ssig0 (x : Z) : Z :=
  Z.lxor (Z.lxor (rotr 7 x) (rotr 18 x)) (Z.shiftr x 3).
Definition ssig1 (x : Z) : Z :=
  Z.lxor (Z.lxor (rotr 17 x) (rotr 19 x)) (Z.shiftr x 10).
Definition bsig0 (x : Z) : Z :=
  Z.lxor (Z.lxor (rotr 2 x) (rotr 13 x)) (rotr 22 x).
Definition bsig1 (x : Z) : Z :=
  Z.lxor (Z.lxor (rotr 6 x) (rotr 11 x)) (rotr 25 x).
Definition ch (x y z : Z) : Z := Z.lxor (Z.land x y) (Z.land (not32 x) z).
Definition maj (x y z : Z) : Z :=
  Z.lxor (Z.lxor (Z.land x y) (Z.land x z)) (Z.land y z).

(** The message schedule: [w] holds W[0..i-1]; [k] more words are added. *)
Fixpoint sha256_extend (k : nat) (w : list Z) : list Z :=
  match k with
  | O => w
  | S k' =>
      let i := length w in
      let at_ j := nth (i - j) w 0 in
      sha256_extend k'
        (w ++ [add32 (add32 (ssig1 (at_ 2%nat)) (at_ 7%nat))
                     (add32 (ssig0 (at_ 15%nat)) (at_ 16%nat))])
  end.

Definition sha256_round (st : sha256_state) (kw : Z * Z) : sha256_state :=
  let '(a, b, c, d, e, f, g, h) := st in
  let t1 := add32 (add32 (add32 h (bsig1 e)) (add32 (ch e f g) (fst kw)))
                  (snd kw) in
  let t2 := add32 (bsig0 a) (maj a b c) in
  (add32 t1 t2, a, b, c, add32 d t1, e, f, g).

Definition sha256_block (st : sha256_state) (block : list Z)
  : sha256_state :=
  let w := sha256_extend 48 (map of_be (chunks 4 block)) in
  let '(a, b, c, d, e, f, g, h) :=
    fold_left sha256_round (combine sha256_K w) st in
  let '(a0, b0, c0, d0, e0, f0, g0, h0) := st in
  (add32 a0 a, add32 b0 b, add32 c0 c, add32 d0 d,
   add32 e0 e, add32 f0 f, add32 g0 g, add32 h0 h).

Definition sha256_digest (msg : list Z) : list Z :=
  let '(a, b, c, d, e, f, g, h) :=
    fold_left sha256_block (chunks 64 (pad be64 msg)) sha256_init in
  be32 a ++ be32 b ++ be32 c ++ be32 d ++
  be32 e ++ be32 f ++ be32 g ++ be32 h.

(** [hashlib.sha256(data).hexdigest()] *)
Definition sha256_hexdigest (msg : list Z) : string :=
  hex (sha256_digest msg).

(** *** MD5 (RFC 1321) *)

Definition md5_T : list Z :=
  [0xd76aa478; 0xe8c7b756; 0x242070db; 0xc1bdceee;
   0xf57c0faf; 0x4787c62a; 0xa8304613; 0xfd469501;
   0x698098d8; 0x8b44f7af; 0xffff5bb1; 0x895cd7be;
   0x6b901122; 0xfd987193; 0xa679438e; 0x49b40821;
   0xf61e2562; 0xc040b340; 0x265e5a51; 0xe9b6c7aa;
   0xd62f105d; 0x02441453; 0xd8a1e681; 0xe7d3fbc8;
   0x21e1cde6; 0xc33707d6; 0xf4d50d87; 0x455a14ed;
   0xa9e3e905; 0xfcefa3f8; 0x676f02d9; 0x8d2a4c8a;
   0xfffa3942; 0x8771f681; 0x6d9d6122; 0xfde5380c;
   0xa4beea44; 0x4bdecfa9; 0xf6bb4b60; 0xbebfbc70;
   0x289b7ec6; 0xeaa127fa; 0xd4ef3085; 0x04881d05;
   0xd9d4d039; 0xe6db99e5; 0x1fa27cf8; 0xc4ac5665;
   0xf4292244; 0x432aff97; 0xab9423a7; 0xfc93a039;
   0x655b59c3; 0x8f0ccc92; 0xffeff47d; 0x85845dd1;
   0x6fa87e4f; 0xfe2ce6e0; 0xa3014314; 0x4e0811a1;
   0xf7537e82; 0xbd3af235; 0x2ad7d2bb; 0xeb86d391].

Definition md5_S : list Z :=
  [7; 12; 17; 22; 7; 12; 17; 22; 7; 12; 17; 22; 7; 12; 17; 22;
   5; 9; 14; 20; 5; 9; 14; 20; 5; 9; 14; 20; 5; 9; 14; 20;
   4; 11; 16; 23; 4; 11; 16; 23; 4; 11; 16; 23; 4; 11; 16; 23;
   6; 10; 15; 21; 6; 10; 15; 21; 6; 10; 15; 21; 6; 10; 15; 21].

Definition md5_state : Type := Z * Z * Z * Z.

Definition md5_init : md5_state :=
  (0x67452301, 0xefcdab89, 0x98badcfe, 0x10325476).

(** Round [i]: the mixing function and the index of the message word. *)
Definition md5_mix (i b c d : Z) : Z * Z :=
  if i <? 16 then (Z.lor (Z.land b c) (Z.land (not32 b) d), i)
  else if i <? 32
  then (Z.lor (Z.land d b) (Z.land (not32 d) c), (5 * i + 1) mod 16)
  else if i <? 48 then (Z.lxor (Z.lxor b c) d, (3 * i + 5) mod 16)
  else (Z.lxor c (Z.lor b (not32 d)), (7 * i) mod 16).

Definition md5_round (m : list Z) (st : md5_state) (ist : Z * (Z * Z))
  : md5_state :=
  let '(a, b, c, d) := st in
  let '(i, (s, t)) := ist in
  let '(f, g) := md5_mix i b c d in
  let x := add32 (add32 a f) (add32 t (nth (Z.to_nat g) m 0)) in
  (d, add32 b (rotl s x), b, c).

Definition md5_block (st : md5_state) (block : list Z) : md5_state :=
  let m := map of_le (chunks 4 block) in
  let rounds := combine (map Z.of_nat (seq 0 64)) (combine md5_S md5_T) in
  let '(a, b, c, d) := fold_left (md5_round m) rounds st in
  let '(a0, b0, c0, d0) := st in
  (add32 a0 a, add32 b0 b, add32 c0 c, add32 d0 d).

Definition md5_digest (msg : list Z) : list Z :=
  let '(a, b, c, d) :=
    fold_left md5_block (chunks 64 (pad le64 msg)) md5_init in
  le32 a ++ le32 b ++ le32 c ++ le32 d.

(** [hashlib.md5(data, usedforsecurity=False).hexdigest()] *)
Definition md5_hexdigest (msg : list Z) : string := hex (md5_digest msg).

Definition is_hex_char (c : ascii) : bool :=
  let n := Z.of_N (Ascii.N_of_ascii c) in
  (48 <=? n) && (n <=? 57) || (97 <=? n) && (n <=? 102).

Fixpoint all_hex (s : string) : bool :=
  match s with
  | EmptyString => true
  | String c s' => is_hex_char c && all_hex s'
  end.

(** All strings of [n] hexadecimal characters. *)
Definition hex_chars : list ascii :=
  ["0"; "1"; "2"; "3"; "4"; "5"; "6"; "7";
   "8"; "9"; "a"; "b"; "c"; "d"; "e"; "f"]%char.

Fixpoint hex_strings (n : nat) : list string :=
  match n with
  | O => [EmptyString]
  | S n' => flat_map (fun c => map (String c) (hex_strings n')) hex_chars
  end.

End Hashlib.


(** ** Python values, exceptions and numbers *)

(** The objects found behind [Any]: JSON data and [datetime] (a time
    stamp).  A [dict] keeps its items in insertion order. *)
#[warnings="-register-all"]
Inductive value : Type :=
| VNone
| VBool (b : bool)
| VInt (n : Z)
| VFloat (x : Q)
| VStr (s : string)
| VDatetime (t : Z)
| VList (l : list value)
| VDict (d : list (string * value)).

(** [ValueError] and [TypeError] are raised by the source with the message
    it builds; the design document calls them InvalidOperation and
    SchemaConflict.  [InterpreterError] stands for the [TypeError],
    [AttributeError] or [KeyError] that the interpreter or [json] raises
    on an object of the wrong type; these are not told apart. *)
Inductive exn : Type :=
| ValueError (msg : string)
| TypeError (msg : string)
| InterpreterError.

Inductive result (A : Type) : Type :=
| Ok (a : A)
| Raise (e : exn).

Arguments Ok {A} a.
Arguments Raise {A} e.

#[global] Instance result_ret : MRet result := fun A a => Ok a.

#[global] Instance result_bind : MBind result := fun A B k m =>
  match m with
  | Ok a => k a
  | Raise e => Raise e
  end.

Definition mapM {A B} (f : A -> result B) : list A -> result (list B) :=
  fix go (l : list A) : result (list B) :=
    match l with
    | [] => Ok []
    | a :: l' => b ← f a; bs ← go l'; Ok (b :: bs)
    end.

Definition filterM {A} (f : A -> result bool) : list A -> result (list A) :=
  fix go (l : list A) : result (list A) :=
    match l with
    | [] => Ok []
    | a :: l' =>
        keep ← f a; rest ← go l'; Ok (if (keep : bool) then a :: rest else rest)
    end.


(** [bool(v)] *)
Definition truthy (v : value) : bool :=
  match v with
  | VNone => false
  | VBool b => b
  | VInt n => negb (n =? 0)
  | VFloat x => negb (Qeq_bool x 0)
  | VStr s => negb (String.eqb s EmptyString)
  | VDatetime _ => true
  | VList l => match l with [] => false | _ => true end
  | VDict d => match d with [] => false | _ => true end
  end.

(** The number behind an operand of [+], [/] or [>=]; other objects make
    the operation raise. *)
Definition as_number (v : value) : result Q :=
  match v with
  | VBool b => Ok (inject_Z (if b then 1 else 0))
  | VInt n => Ok (inject_Z n)
  | VFloat x => Ok x
  | _ => Raise InterpreterError
  end.

(** [d.get(key)] on an association list with distinct keys. *)
Fixpoint dict_get (d : list (string * value)) (key : string) : option value :=
  match d with
  | [] => None
  | (k, v) :: d' => if String.eqb k key then Some v else dict_get d' key
  end.

(** [c.get(key, dflt)]; an object that is not a [dict] has no such
    method. *)
Definition get_field (c : value) (key : string) (dflt : value) : result value :=
  match c with
  | VDict d => Ok (default dflt (dict_get d key))
  | _ => Raise InterpreterError
  end.

(** [l[start:]] *)
Definition slice_from {A} (start : Z) (l : list A) : list A :=
  let n := Z.of_nat (length l) in
  let i := if start <? 0 then Z.max (start + n) 0 else Z.min start n in
  drop (Z.to_nat i) l.

(** [s[:n]] *)
Fixpoint str_prefix (n : nat) (s : string) : string :=
  match n, s with
  | S n', String c s' => String c (str_prefix n' s')
  | _, _ => EmptyString
  end.

Definition Qsum (l : list Q) : Q := fold_left Qplus l (inject_Z 0).

(** [round(x, ndigits)]: the nearest multiple of [10^-ndigits], a tie
    going to the even one. *)
Definition round_half_even (x : Q) : Z :=
  let f := Qfloor x in
  match Qcompare (x - inject_Z f) (1 # 2) with
  | Lt => f
  | Gt => f + 1
  | Eq => if Z.even f then f else f + 1
  end.

Definition py_round (x : Q) (ndigits : nat) : Q :=
  let p := inject_Z (10 ^ Z.of_nat ndigits) in
  Qred (inject_Z (round_half_even (x * p)) / p).

(** [str(n)] of an [int] *)
Definition str_of_int (n : Z) : string := NilEmpty.string_of_int (Z.to_int n).

(** ** json.dumps(obj, sort_keys=True) *)

Definition dquote : ascii := "034"%char.

(** One character of a JSON string literal under [ensure_ascii]. *)
Definition json_escape_char (c : ascii) : string :=
  let n := PyStr.ord c in
  if n =? 34 then String "\"%char (String dquote EmptyString)
  else if n =? 92 then "\\"%string
  else if n =? 8 then "\b"%string
  else if n =? 9 then "\t"%string
  else if n =? 10 then "\n"%string
  else if n =? 12 then "\f"%string
  else if n =? 13 then "\r"%string
  else if (32 <=? n) && (n <=? 126) then String c EmptyString
  else "\u00"%string +:+
       String (Hashlib.hexdigit (Z.shiftr n 4))
         (String (Hashlib.hexdigit n) EmptyString).

Fixpoint json_escape (s : string) : string :=
  match s with
  | EmptyString => EmptyString
  | String c s' => json_escape_char c +:+ json_escape s'
  end.

Definition json_quote (s : string) : string :=
  String dquote (json_escape s +:+ String dquote EmptyString).

(** Items are ordered by key, as [sorted(dct.items())] orders them when
    the keys are distinct. *)
Definition key_le {A} (p q : string * A) : Prop := String.le p.1 q.1.

#[global] Instance key_le_dec {A} : RelDecision (@key_le A).
Proof. intros p q. unfold key_le. apply _. Defined.

#[global] Instance key_le_trans {A} : Transitive (@key_le A).
Proof. intros p q r. unfold key_le. apply transitivity. Qed.

#[global] Instance key_le_total {A} : Total (@key_le A).
Proof. intros p q. unfold key_le. apply total, _. Qed.

Definition sort_items {A} (items : list (string * A)) : list (string * A) :=
  merge_sort key_le items.

Definition json_item (kv : string * string) : string :=
  json_quote kv.1 +:+ ": "%string +:+ kv.2.

(** Nested induction on values. *)
Section value_ind_nested.
Variable P : value -> Prop.
Hypothesis HNone : P VNone.
Hypothesis HBool : forall b, P (VBool b).
Hypothesis HInt : forall n, P (VInt n).
Hypothesis HFloat : forall x, P (VFloat x).
Hypothesis HStr : forall s, P (VStr s).
Hypothesis HDatetime : forall t, P (VDatetime t).
Hypothesis HList : forall l, Forall P l -> P (VList l).
Hypothesis HDict : forall d, Forall (fun kv => P kv.2) d -> P (VDict d).

End value_ind_nested.



(** ** models.py: records *)

(** [input: dict[str, Any] | str] *)
Inductive tool_input : Type :=
| InputStr (s : string)
| InputDict (d : list (string * value)).


Module ToolCallResult.
Record t : Type := mk {
  tool_name : string;
  input : tool_input;
  output : string;
  success : bool;
  time_cost : Q;
  token_cost : Z;
  score : Q;
  call_hash : string;
  created_at : Z
}.

(** [self.call_hash = h] *)
Definition set_call_hash (h : string) (self : t) : t :=
  mk (tool_name self) (input self) (output self) (success self)
     (time_cost self) (token_cost self) (score self) h (created_at self).
End ToolCallResult.

Module MemoryItem.
Record t : Type := mk {
  id : string;
  created_at : Z;
  updated_at : Z;
  resource_id : option string;
  memory_type : string;
  summary : string;
  embedding : option (list Q);
  happened_at : option Z;
  extra : option (gmap string value)
}.

(** [item.extra = e] *)
Definition set_extra (e : option (gmap string value)) (item : t) : t :=
  mk (id item) (created_at item) (updated_at item) (resource_id item)
     (memory_type item) (summary item) (embedding item) (happened_at item) e.
End MemoryItem.

(** A pydantic model class, as far as [merge_scope_model] looks at it: its
    name, the names of its fields ([model_fields], in order) and the
    [extra] entry of its [model_config].  What Python checks when it
    creates a class (a consistent method resolution order) is not
    modelled. *)
Inductive extra_policy : Type := ExtraIgnore | ExtraAllow | ExtraForbid.

Record model : Type := mk_model {
  model_name : string;
  model_fields : list string;
  model_extra : extra_policy
}.

Definition BaseRecord_fields : list string :=
  ["id"; "created_at"; "updated_at"]%string.

Definition BaseRecord : model :=
  mk_model "BaseRecord" BaseRecord_fields ExtraIgnore.

Definition Resource : model :=
  mk_model "Resource"
    (BaseRecord_fields ++
     ["url"; "modality"; "local_path"; "caption"; "embedding"]%string)
    ExtraIgnore.

(** The class [MemoryItem] as a model; [MemoryItem.t] above is the type of
    its instances. *)
Definition MemoryItemModel : model :=
  mk_model "MemoryItem"
    (BaseRecord_fields ++
     ["resource_id"; "memory_type"; "summary"; "embedding"; "happened_at";
      "extra"]%string)
    ExtraIgnore.

Definition MemoryCategory : model :=
  mk_model "MemoryCategory"
    (BaseRecord_fields ++
     ["name"; "description"; "embedding"; "summary"]%string)
    ExtraIgnore.

Definition CategoryItem : model :=
  mk_model "CategoryItem"
    (BaseRecord_fields ++ ["item_id"; "category_id"]%string) ExtraIgnore.

(** The dictionary returned by [get_tool_statistics]; its six keys are
    fixed. *)
Record statistics : Type := mk_statistics {
  total_calls : Z;
  recent_calls_analyzed : Z;
  avg_time_cost : Q;
  success_rate : Q;
  avg_score : Q;
  avg_token_cost : Q
}.

(** A printer of decimal expansions, cut after 17 fractional digits.  It
    writes what [repr] writes for a float with a short expansion ([0.5],
    [12.5], [3.0]) and is what the closed examples below run with. *)
Fixpoint frac_digits (fuel : nat) (num den : Z) : string :=
  match fuel with
  | O => EmptyString
  | S fuel' =>
      if num =? 0 then EmptyString
      else String (Hashlib.hexdigit (num * 10 / den))
                  (frac_digits fuel' ((num * 10) mod den) den)
  end.

Definition decimal_repr (x : Q) : string :=
  let n := Z.abs (Qnum x) in
  let d := Z.pos (Qden x) in
  (if Qnum x <? 0 then "-"%string else EmptyString) +:+
  str_of_int (n / d) +:+ "."%string +:+
  match frac_digits 17 (n mod d) d with
  | EmptyString => "0"%string
  | digits => digits
  end.

(** ** models.py and utils/tool.py: functions *)

Section Memu.

(** [repr] of a [float], which [json.dumps] writes for a float leaf. *)
Variable float_repr : Q -> string.

Fixpoint json_dumps (v : value) : result string :=
  match v with
  | VNone => Ok "null"%string
  | VBool true => Ok "true"%string
  | VBool false => Ok "false"%string
  | VInt n => Ok (str_of_int n)
  | VFloat x => Ok (float_repr x)
  | VStr s => Ok (json_quote s)
  | VDatetime _ => Raise InterpreterError
  | VList l =>
      items ← mapM json_dumps l;
      Ok ("["%string +:+ PyStr.join ", " items +:+ "]"%string)
  | VDict d =>
      items ← mapM (fun kv => s ← json_dumps kv.2; Ok (kv.1, s)) d;
      Ok ("{"%string +:+
          PyStr.join ", " (map json_item (sort_items items)) +:+ "}"%string)
  end.

Definition compute_content_hash (summary memory_type : string) : string :=
  let normalized := PyStr.join " " (PyStr.split (PyStr.lower summary)) in
  let content := memory_type +:+ ":"%string +:+ normalized in
  str_prefix 16 (Hashlib.sha256_hexdigest (PyStr.encode content)).

(** The normal form of a summary in the words of the design document:
    lower-cased, trimmed, whitespace runs collapsed to one space. *)
Definition normal_form (summary : string) : string :=
  PyStr.collapse false (PyStr.strip (PyStr.lower summary)).

(** *** class ToolCallResult *)

Definition input_str (self : ToolCallResult.t) : result string :=
  match ToolCallResult.input self with
  | InputDict d => json_dumps (VDict d)
  | InputStr s => Ok s
  end.

Definition combined (tool_name input_str output : string) : string :=
  tool_name +:+ "|"%string +:+ input_str +:+ "|"%string +:+ output.

Definition generate_hash (self : ToolCallResult.t) : result string :=
  input_str ← input_str self;
  Ok (Hashlib.md5_hexdigest
        (PyStr.encode (combined (ToolCallResult.tool_name self) input_str
                                (ToolCallResult.output self)))).

(** [ensure_hash] returns nothing; the pair is the outcome and [self]
    after the call. *)
Definition ensure_hash (self : ToolCallResult.t)
  : result unit * ToolCallResult.t :=
  if String.eqb (ToolCallResult.call_hash self) EmptyString then
    match generate_hash self with
    | Ok h => (Ok tt, ToolCallResult.set_call_hash h self)
    | Raise e => (Raise e, self)
    end
  else (Ok tt, self).

(** [self.model_dump()] *)
Definition model_dump (self : ToolCallResult.t) : value :=
  VDict
    [("tool_name", VStr (ToolCallResult.tool_name self));
     ("input", match ToolCallResult.input self with
               | InputStr s => VStr s
               | InputDict d => VDict d
               end);
     ("output", VStr (ToolCallResult.output self));
     ("success", VBool (ToolCallResult.success self));
     ("time_cost", VFloat (ToolCallResult.time_cost self));
     ("token_cost", VInt (ToolCallResult.token_cost self));
     ("score", VFloat (ToolCallResult.score self));
     ("call_hash", VStr (ToolCallResult.call_hash self));
     ("created_at", VDatetime (ToolCallResult.created_at self))]%string.

(** *** merge_scope_model, build_scoped_models *)

(** [repr] of a list of field names; a field name is an identifier, which
    [repr] puts between single quotes unchanged. *)
Definition repr_names (names : list string) : string :=
  "["%string +:+
  PyStr.join ", " (map (fun s => "'"%string +:+ s +:+ "'"%string) names) +:+
  "]"%string.

Definition sorted (names : gset string) : list string :=
  merge_sort String.le (elements names).

Definition conflict_msg (names : list string) : string :=
  "Scope fields conflict with core model fields: "%string +:+ repr_names names.

(** The class built by [type(name, (user_model, core_model), ...)] has the
    fields of both bases; the order in which they are listed here is not
    used by any statement. *)
Definition merge_scope_model (user_model core_model : model)
    (name_suffix : string) : result model :=
  let overlap : gset string :=
    list_to_set (model_fields user_model)
    ∩ list_to_set (model_fields core_model) in
  if decide (overlap = ∅) then
    Ok (mk_model
          (model_name user_model +:+ model_name core_model +:+ name_suffix)
          (model_fields core_model ++ model_fields user_model)
          ExtraAllow)
  else Raise (TypeError (conflict_msg (sorted overlap))).

Definition build_scoped_models (user_model : model)
  : result (model * model * model * model) :=
  resource_model ← merge_scope_model user_model Resource "Resource";
  memory_category_model ←
    merge_scope_model user_model MemoryCategory "MemoryCategory";
  memory_item_model ←
    merge_scope_model user_model MemoryItemModel "MemoryItem";
  category_item_model ←
    merge_scope_model user_model CategoryItem "CategoryItem";
  Ok (resource_model, memory_category_model, memory_item_model,
      category_item_model).

(** *** utils/tool.py *)

Definition get_tool_calls (item : MemoryItem.t) : value :=
  default (VList []) (default ∅ (MemoryItem.extra item) !! "tool_calls"%string).

Definition set_tool_calls (item : MemoryItem.t) (tool_calls : value)
  : MemoryItem.t :=
  MemoryItem.set_extra
    (Some (<["tool_calls"%string := tool_calls]>
             (default ∅ (MemoryItem.extra item))))
    item.

Definition add_tool_call_msg : string :=
  "add_tool_call can only be used with tool type memories".

(** The outcome, and [item] and [tool_call] after the call. *)
Definition add_tool_call (item : MemoryItem.t) (tool_call : ToolCallResult.t)
  : result unit * MemoryItem.t * ToolCallResult.t :=
  if negb (String.eqb (MemoryItem.memory_type item) "tool") then
    (Raise (ValueError add_tool_call_msg), item, tool_call)
  else
    match ensure_hash tool_call with
    | (Raise e, tool_call') => (Raise e, item, tool_call')
    | (Ok _, tool_call') =>
        match get_tool_calls item with
        | VList tool_calls =>
            (Ok tt,
             set_tool_calls item (VList (tool_calls ++ [model_dump tool_call'])),
             tool_call')
        | _ => (Raise InterpreterError, item, tool_call')
        end
    end.

(** The default of [recent_n]. *)
Definition default_recent_n : Z := 20.

Definition zero_statistics : statistics :=
  mk_statistics 0 0 (inject_Z 0) (inject_Z 0) (inject_Z 0) (inject_Z 0).

(** The part of [get_tool_statistics] after the window is cut. *)
Definition window_statistics (total : Z) (recent_calls : list value)
  : result statistics :=
  let recent_count := Z.of_nat (length recent_calls) in
  times ← mapM (fun c => v ← get_field c "time_cost" (VFloat (inject_Z 0));
                         as_number v) recent_calls;
  let total_time := Qsum times in
  let avg_time_cost :=
    if recent_count >? 0 then (total_time / inject_Z recent_count)%Q
    else inject_Z 0 in
  flags ← mapM (fun c => v ← get_field c "success" (VBool true);
                         Ok (truthy v)) recent_calls;
  let successful := Z.of_nat (length (filter (fun b => b = true) flags)) in
  let success_rate :=
    if recent_count >? 0 then (inject_Z successful / inject_Z recent_count)%Q
    else inject_Z 0 in
  scores ← mapM (fun c => v ← get_field c "score" (VFloat (inject_Z 0));
                          as_number v) recent_calls;
  let total_score := Qsum scores in
  let avg_score :=
    if recent_count >? 0 then (total_score / inject_Z recent_count)%Q
    else inject_Z 0 in
  valid_token_calls ←
    filterM (fun c => v ← get_field c "token_cost" (VInt (-1));
                      x ← as_number v;
                      Ok (Qle_bool (inject_Z 0) x)) recent_calls;
  tokens ← mapM (fun c => v ← get_field c "token_cost" (VInt 0);
                          as_number v) valid_token_calls;
  let avg_token_cost :=
    match valid_token_calls with
    | [] => inject_Z 0
    | _ => (Qsum tokens / inject_Z (Z.of_nat (length valid_token_calls)))%Q
    end in
  Ok (mk_statistics total recent_count
        (py_round avg_time_cost 3) (py_round success_rate 4)
        (py_round avg_score 3) (py_round avg_token_cost 2)).

Definition get_tool_statistics (item : MemoryItem.t) (recent_n : Z)
  : result statistics :=
  let tool_calls := get_tool_calls item in
  if negb (truthy tool_calls) then Ok zero_statistics
  else
    match tool_calls with
    | VList l =>
        window_statistics (Z.of_nat (length l)) (slice_from (- recent_n) l)
    | VStr s =>
        (* a slice of a string is a string; its characters have no [get] *)
        match slice_from (- recent_n) (list_ascii_of_string s) with
        | [] => window_statistics (Z.of_nat (String.length s)) []
        | _ => Raise InterpreterError
        end
    | _ => Raise InterpreterError
    end.

(** *** Vocabulary of the statements about the ledger *)

(** [item'] is [item] except for the key [tool_calls] of [extra]; its
    [extra] is a map. *)
Definition unchanged_but_tool_calls (item item' : MemoryItem.t) : Prop :=
  MemoryItem.id item' = MemoryItem.id item
  /\ MemoryItem.created_at item' = MemoryItem.created_at item
  /\ MemoryItem.updated_at item' = MemoryItem.updated_at item
  /\ MemoryItem.resource_id item' = MemoryItem.resource_id item
  /\ MemoryItem.memory_type item' = MemoryItem.memory_type item
  /\ MemoryItem.summary item' = MemoryItem.summary item
  /\ MemoryItem.embedding item' = MemoryItem.embedding item
  /\ MemoryItem.happened_at item' = MemoryItem.happened_at item
  /\ is_Some (MemoryItem.extra item')
  /\ forall key : string,
       key <> "tool_calls"%string ->
       default ∅ (MemoryItem.extra item') !! key
       = default ∅ (MemoryItem.extra item) !! key.

(** A well-formed ledger entry: a [dict] whose [time_cost], [score] and
    [token_cost], when present, are numbers. *)
Definition numeric (v : value) : bool :=
  match v with
  | VBool _ | VInt _ | VFloat _ => true
  | _ => false
  end.

Definition well_formed_call (c : value) : bool :=
  match c with
  | VDict d =>
      forallb (fun key => match dict_get d key with
                          | Some v => numeric v
                          | None => true
                          end)
        ["time_cost"; "score"; "token_cost"]%string
  | _ => false
  end.

(** The number stored under [key] in an entry, [dflt] when the key is
    missing. *)
Definition field_number (c : value) (key : string) (dflt : Z) : Q :=
  match c with
  | VDict d =>
      match as_number (default (VInt dflt) (dict_get d key)) with
      | Ok x => x
      | Raise _ => inject_Z dflt
      end
  | _ => inject_Z dflt
  end.

(** The token costs that count: those of the entries of the window whose
    token cost, [-1] when missing, is not negative. *)
Definition valid_token_costs (window : list value) : list Q :=
  List.filter (Qle_bool (inject_Z 0))
    (map (fun c => field_number c "token_cost" (-1)) window).

Definition mean (l : list Q) : Q :=
  match l with
  | [] => inject_Z 0
  | _ => (Qsum l / inject_Z (Z.of_nat (length l)))%Q
  end.

(** The last [n] entries of a ledger, all of them when there are fewer. *)
Definition last_entries {A} (n : Z) (l : list A) : list A :=
  drop (length l - Z.to_nat n) l.

(** The statistics in the words of the design document, over a window:
    means of [time_cost] and [score] (missing: 0), the fraction of entries
    whose [success] is true (missing: true), the mean of the token costs
    that count; each rounded as the document says. *)
Definition entry_success (c : value) : bool :=
  match c with
  | VDict d => truthy (default (VBool true) (dict_get d "success"))
  | _ => true
  end.

Definition success_fraction (window : list value) : Q :=
  match window with
  | [] => inject_Z 0
  | _ => (inject_Z (Z.of_nat (length (List.filter entry_success window)))
          / inject_Z (Z.of_nat (length window)))%Q
  end.

Definition spec_statistics (total : Z) (window : list value) : statistics :=
  mk_statistics total (Z.of_nat (length window))
    (py_round (mean (map (fun c => field_number c "time_cost" 0) window)) 3)
    (py_round (success_fraction window) 4)
    (py_round (mean (map (fun c => field_number c "score" 0) window)) 3)
    (py_round (mean (valid_token_costs window)) 2).

(** *** Items of the test suite *)

Definition tool_item (calls : list value) : MemoryItem.t :=
  MemoryItem.mk "item-1" 0 0 None "tool" "tool with many calls" None None
    (Some {["tool_calls"%string := VList calls]}).

(** The three calls of [test_get_tool_statistics_recent_n]. *)
Definition call (input output : string) (success : bool) (time_cost score : Q)
  : value :=
  VDict [("tool_name", VStr "t"); ("input", VStr input);
         ("output", VStr output); ("success", VBool success);
         ("time_cost", VFloat time_cost); ("score", VFloat score)]%string.

Definition recent_n_calls : list value :=
  [call "1" "1" false 1 0; call "2" "2" true (1 # 10) 1;
   call "3" "3" true (1 # 10) 1].




(** The string of [n] letters [a]. *)
Fixpoint letters (n : nat) : string :=
  match n with
  | O => EmptyString
  | S n' => String "a"%char (letters n')
  end.

(** *** Results of the test suite and of the examples *)

Definition new_call (tool_name : string) (input : tool_input) (output : string)
  : ToolCallResult.t :=
  ToolCallResult.mk tool_name input output true 0 (-1) 0 EmptyString 0.

Definition calculator_call : ToolCallResult.t :=
  ToolCallResult.mk "calculator"
    (InputDict [("a"%string, VInt 1); ("b"%string, VInt 2)]) "3" true
    (1 # 10) (-1) 1 EmptyString 0.


Definition profile_item : MemoryItem.t :=
  MemoryItem.mk "item-2" 0 0 None "profile" "User profile info" None None
    (Some ∅).

(** The three calls of [test_get_tool_statistics]. *)
Definition calc_call (success : bool) (time_cost score : Q) (token_cost : Z)
  : value :=
  VDict [("tool_name", VStr "calc"); ("success", VBool success);
         ("time_cost", VFloat time_cost); ("score", VFloat score);
         ("token_cost", VInt token_cost)]%string.

Definition calc_calls : list value :=
  [calc_call true (1 # 10) 1 10; calc_call true (2 # 10) (9 # 10) 15;
   calc_call false (5 # 10) 0 5].
(** *** Vocabulary of the statements about ledgers of results *)


(** *** Vocabulary of the statements about the text that is hashed *)

(** The values of the type [MemoryType]. *)
Definition MemoryType : list string :=
  ["profile"; "event"; "knowledge"; "behavior"; "skill"; "tool"]%string.

(** A string without the separator [":"] of the hashed text. *)
Fixpoint no_colon (s : string) : bool :=
  match s with
  | EmptyString => true
  | String c s' => negb (Ascii.eqb c ":") && no_colon s'
  end.

(** A word as [split] returns it: not empty, without whitespace. *)
Definition is_word (w : string) : Prop :=
  w <> EmptyString /\ PyStr.no_space w = true.

(** *** Vocabulary of the statements about scoped models *)

(** The core models that [build_scoped_models] scopes, in its order. *)
Definition core_models : list model :=
  [Resource; MemoryCategory; MemoryItemModel; CategoryItem].

(** The field names that the core models declare between them. *)
Definition reserved_fields : list string :=
  ["id"; "created_at"; "updated_at"; "url"; "modality"; "local_path";
   "caption"; "embedding"; "name"; "description"; "summary"; "resource_id";
   "memory_type"; "happened_at"; "extra"; "item_id"; "category_id"]%string.

(** No field of [user_model] is a field of [core_model]. *)
Definition disjoint_fields (user_model core_model : model) : Prop :=
  forall f, f ∈ model_fields user_model -> f ∉ model_fields core_model.

(** * Properties *)

(** ** Strings *)

Lemma append_cons (c : ascii) (s t : string) :
  String c s +:+ t = String c (s +:+ t).
Proof. reflexivity. Qed.

Lemma append_nil_r (s : string) : s +:+ EmptyString = s.
Proof.
  induction s as [|c s IH]; [reflexivity|]. by rewrite append_cons, IH.
Qed.

Lemma append_assoc (s1 s2 s3 : string) :
  (s1 +:+ s2) +:+ s3 = s1 +:+ s2 +:+ s3.
Proof.
  induction s1 as [|c s1 IH]; [reflexivity|]. by rewrite !append_cons, IH.
Qed.

Lemma append_snoc_ne (s : string) (c : ascii) :
  s +:+ String c EmptyString <> EmptyString.
Proof. by destruct s. Qed.

Lemma flush_ne (cur : string) : cur <> EmptyString -> PyStr.flush cur = [cur].
Proof. by destruct cur. Qed.

Lemma join_flush (sep cur : string) : PyStr.join sep (PyStr.flush cur) = cur.
Proof. by destruct cur. Qed.

Lemma join_cons (sep p : string) (ps : list string) :
  ps <> [] -> PyStr.join sep (p :: ps) = p +:+ sep +:+ PyStr.join sep ps.
Proof. by destruct ps. Qed.

(** *** split and strip *)

Lemma split_from_cons (cur : string) (c : ascii) (s : string) :
  PyStr.split_from cur (String c s)
  = if PyStr.isspace c
    then PyStr.flush cur ++ PyStr.split_from EmptyString s
    else PyStr.split_from (cur +:+ String c EmptyString) s.
Proof. reflexivity. Qed.

Lemma split_from_lstrip (s : string) :
  PyStr.split_from EmptyString (PyStr.lstrip s) = PyStr.split_from EmptyString s.
Proof.
  induction s as [|c s IH]; [reflexivity|]. cbn.
  destruct (PyStr.isspace c) eqn:Hc; [exact IH|].
  cbn. by rewrite Hc.
Qed.

Lemma split_from_rstrip (s cur : string) :
  PyStr.split_from cur (PyStr.rstrip s) = PyStr.split_from cur s.
Proof.
  revert cur. induction s as [|c s IH]; intros cur; [reflexivity|].
  cbn [PyStr.rstrip]. destruct (PyStr.rstrip s) as [|c2 r] eqn:Hr.
  - cbn [PyStr.split_from]. destruct (PyStr.isspace c) eqn:Hc.
    + rewrite <- IH. cbn. by rewrite app_nil_r.
    + rewrite <- IH. cbn. by rewrite Hc.
  - rewrite (split_from_cons cur c (String c2 r)), (split_from_cons cur c s).
    by rewrite !IH.
Qed.

Lemma split_from_cur_ne (s cur : string) :
  cur <> EmptyString -> PyStr.split_from cur s <> [].
Proof.
  revert cur. induction s as [|c s IH]; intros cur Hcur; cbn.
  - by rewrite flush_ne.
  - destruct (PyStr.isspace c).
    + by rewrite flush_ne.
    + apply IH, append_snoc_ne.
Qed.

Lemma split_from_rstrip_ne (s cur : string) :
  PyStr.rstrip s <> EmptyString -> PyStr.split_from cur s <> [].
Proof.
  revert cur. induction s as [|c s IH]; intros cur Hr; [done|].
  cbn in *. destruct (PyStr.isspace c) eqn:Hc.
  - destruct (PyStr.rstrip s) eqn:Hs; [done|].
    intros Happ. apply app_eq_nil in Happ as [_ Happ]. by eapply IH.
  - apply split_from_cur_ne, append_snoc_ne.
Qed.

Lemma join_split_rstrip (s cur : string) :
  PyStr.join " " (PyStr.split_from cur (PyStr.rstrip s))
  = if decide (cur = EmptyString) then PyStr.collapse true (PyStr.rstrip s)
    else cur +:+ PyStr.collapse false (PyStr.rstrip s).
Proof.
  revert cur. induction s as [|c s IH]; intros cur.
  { cbn. rewrite join_flush. case_decide; [done|by rewrite append_nil_r]. }
  cbn [PyStr.rstrip]. destruct (PyStr.rstrip s) as [|c2 r] eqn:Hr.
  - destruct (PyStr.isspace c) eqn:Hc.
    + cbn. rewrite join_flush. case_decide; [done|by rewrite append_nil_r].
    + cbn. rewrite Hc. cbn. rewrite join_flush.
      case_decide as Hcur; [by subst|done].
  - rewrite (split_from_cons cur c (String c2 r)).
    change (PyStr.collapse ?b (String c (String c2 r)))
      with (if PyStr.isspace c
            then (if b then PyStr.collapse true (String c2 r)
                  else String " "%char (PyStr.collapse true (String c2 r)))
            else String c (PyStr.collapse false (String c2 r))).
    destruct (PyStr.isspace c) eqn:Hc.
    + specialize (IH EmptyString). rewrite decide_True in IH by done.
      assert (PyStr.split_from EmptyString (String c2 r) <> []) as Hne.
      { rewrite <- Hr, split_from_rstrip. apply split_from_rstrip_ne.
        by rewrite Hr. }
      case_decide as Hcur.
      * subst cur. exact IH.
      * rewrite flush_ne by done. cbn [app].
        rewrite join_cons by done. by rewrite IH.
    + rewrite IH. rewrite decide_False by apply append_snoc_ne.
      rewrite append_assoc. by case_decide as Hcur; [subst|].
Qed.

Lemma lstrip_head (s : string) :
  match PyStr.lstrip s with
  | EmptyString => True
  | String c _ => PyStr.isspace c = false
  end.
Proof.
  induction s as [|c s IH]; [done|]. cbn.
  by destruct (PyStr.isspace c) eqn:Hc; [|cbn].
Qed.

Lemma collapse_strip (s : string) :
  PyStr.collapse true (PyStr.strip s) = PyStr.collapse false (PyStr.strip s).
Proof.
  unfold PyStr.strip. pose proof (lstrip_head s) as Hh.
  destruct (PyStr.lstrip s) as [|c r]; [done|].
  cbn [PyStr.rstrip].
  destruct (PyStr.rstrip r); rewrite ?Hh; cbn; by rewrite Hh.
Qed.

(** [" ".join(s.split())] trims [s] and collapses its whitespace runs. *)
Lemma join_split_normal (s : string) :
  PyStr.join " " (PyStr.split s) = PyStr.collapse false (PyStr.strip s).
Proof.
  unfold PyStr.split. rewrite <- split_from_lstrip, <- split_from_rstrip.
  rewrite join_split_rstrip, decide_True by done. apply collapse_strip.
Qed.

(** *** lower and split *)

Lemma isspace_lower_char (c : ascii) :
  PyStr.isspace (PyStr.lower_char c) = PyStr.isspace c.
Proof. by destruct c as [[] [] [] [] [] [] [] []]. Qed.

Lemma lower_app (s t : string) :
  PyStr.lower (s +:+ t) = PyStr.lower s +:+ PyStr.lower t.
Proof.
  induction s as [|c s IH]; [reflexivity|].
  rewrite append_cons. cbn [PyStr.lower]. by rewrite IH.
Qed.

Lemma flush_lower (cur : string) :
  PyStr.flush (PyStr.lower cur) = map PyStr.lower (PyStr.flush cur).
Proof. by destruct cur. Qed.

Lemma split_from_lower (s cur : string) :
  PyStr.split_from (PyStr.lower cur) (PyStr.lower s)
  = map PyStr.lower (PyStr.split_from cur s).
Proof.
  revert cur. induction s as [|c s IH]; intros cur.
  { apply flush_lower. }
  cbn [PyStr.lower]. rewrite !split_from_cons, isspace_lower_char.
  destruct (PyStr.isspace c).
  - rewrite map_app, <- flush_lower. f_equal. apply (IH EmptyString).
  - rewrite <- IH, lower_app. reflexivity.
Qed.

Lemma split_lower (s : string) :
  PyStr.split (PyStr.lower s) = map PyStr.lower (PyStr.split s).
Proof. apply (split_from_lower s EmptyString). Qed.

(** *** split of a layout *)

Lemma split_from_spaces (w s : string) :
  PyStr.all_space w = true ->
  PyStr.split_from EmptyString (w +:+ s) = PyStr.split_from EmptyString s.
Proof.
  induction w as [|c w IH]; [done|]. cbn [PyStr.all_space].
  intros [Hc Hw]%andb_true_iff. rewrite append_cons, split_from_cons, Hc.
  by apply IH.
Qed.

Lemma split_from_word (w s cur : string) :
  PyStr.no_space w = true ->
  PyStr.split_from cur (w +:+ s) = PyStr.split_from (cur +:+ w) s.
Proof.
  revert cur. induction w as [|c w IH]; intros cur.
  { by rewrite append_nil_r. }
  cbn [PyStr.no_space]. intros [Hc Hw]%andb_true_iff.
  apply negb_true_iff in Hc.
  rewrite append_cons, split_from_cons, Hc, IH by done.
  by rewrite append_assoc.
Qed.

Lemma split_layout_parts (parts : list (string * string)) :
  PyStr.wf_parts parts ->
  PyStr.split_from EmptyString (PyStr.layout_parts parts) = map fst parts.
Proof.
  induction parts as [|[w sep] parts IH]; [done|].
  intros (Hw & Hns & Hsep & Hlast & Hwf). cbn [PyStr.layout_parts map fst].
  rewrite split_from_word by done. change (EmptyString +:+ w) with w.
  destruct sep as [|c sep].
  - destruct parts as [|p parts]; [|by destruct Hlast].
    change (PyStr.split_from w _) with (PyStr.flush w). by rewrite flush_ne.
  - cbn [PyStr.all_space] in Hsep. apply andb_true_iff in Hsep as [Hc Hsep].
    rewrite append_cons, split_from_cons, Hc, flush_ne by done.
    rewrite split_from_spaces by done. cbn [app]. f_equal. by apply IH.
Qed.

(** [split] returns the words of a well-formed layout. *)
Lemma split_layout (pre : string) (parts : list (string * string)) :
  PyStr.all_space pre = true -> PyStr.wf_parts parts ->
  PyStr.split (PyStr.layout pre parts) = map fst parts.
Proof.
  intros Hpre Hwf. unfold PyStr.split, PyStr.layout.
  rewrite split_from_spaces by done. by apply split_layout_parts.
Qed.

(** Every text is a well-formed layout. *)
Lemma layout_exists (s : string) :
  exists pre parts,
    PyStr.all_space pre = true /\ PyStr.wf_parts parts
    /\ s = PyStr.layout pre parts.
Proof.
  induction s as [|c s (pre & parts & Hpre & Hwf & ->)].
  { by exists EmptyString, []. }
  destruct (PyStr.isspace c) eqn:Hc.
  { exists (String c pre), parts. cbn [PyStr.all_space].
    by rewrite Hc, Hpre. }
  destruct pre as [|c' pre].
  - destruct parts as [|[w sep] parts].
    + exists EmptyString, [(String c EmptyString, EmptyString)].
      cbn. by rewrite Hc.
    + exists EmptyString, ((String c w, sep) :: parts).
      destruct Hwf as (Hw & Hns & Hsep & Hlast & Hwf).
      cbn [PyStr.wf_parts PyStr.no_space]. by rewrite Hc, Hns.
  - exists EmptyString, ((String c EmptyString, String c' pre) :: parts).
    cbn [PyStr.wf_parts PyStr.no_space]. by rewrite Hc.
Qed.

(** ** Digests *)

Lemma string_of_list_ascii_length (l : list ascii) :
  String.length (string_of_list_ascii l) = length l.
Proof. induction l as [|c l IH]; [done|]. cbn. by rewrite IH. Qed.

Lemma hex_length (bs : list Z) :
  String.length (Hashlib.hex bs) = (2 * length bs)%nat.
Proof.
  unfold Hashlib.hex. rewrite string_of_list_ascii_length.
  induction bs as [|b bs IH]; [done|]. cbn. rewrite IH. lia.
Qed.

Lemma hexdigit_is_hex (n : Z) : Hashlib.is_hex_char (Hashlib.hexdigit n) = true.
Proof.
  unfold Hashlib.hexdigit. generalize (Z.to_nat (n mod 16)). intros i.
  do 16 (destruct i as [|i]; [reflexivity|]). by destruct i.
Qed.

Lemma hex_all_hex (bs : list Z) : Hashlib.all_hex (Hashlib.hex bs) = true.
Proof.
  unfold Hashlib.hex. induction bs as [|b bs IH]; [done|].
  cbn [flat_map Hashlib.hex_of_byte app string_of_list_ascii Hashlib.all_hex].
  by rewrite !hexdigit_is_hex, IH.
Qed.

Lemma sha256_digest_length (msg : list Z) :
  length (Hashlib.sha256_digest msg) = 32%nat.
Proof.
  unfold Hashlib.sha256_digest.
  by destruct (fold_left _ _ _) as [[[[[[[a b] c] d] e] f] g] h].
Qed.

Lemma md5_digest_length (msg : list Z) :
  length (Hashlib.md5_digest msg) = 16%nat.
Proof.
  unfold Hashlib.md5_digest. by destruct (fold_left _ _ _) as [[[a b] c] d].
Qed.

Lemma sha256_hexdigest_length (msg : list Z) :
  String.length (Hashlib.sha256_hexdigest msg) = 64%nat.
Proof.
  unfold Hashlib.sha256_hexdigest. by rewrite hex_length, sha256_digest_length.
Qed.

Lemma md5_hexdigest_length (msg : list Z) :
  String.length (Hashlib.md5_hexdigest msg) = 32%nat.
Proof.
  unfold Hashlib.md5_hexdigest. by rewrite hex_length, md5_digest_length.
Qed.

Lemma md5_hexdigest_ne (msg : list Z) :
  Hashlib.md5_hexdigest msg <> EmptyString.
Proof.
  intros H. pose proof (md5_hexdigest_length msg) as Hl. by rewrite H in Hl.
Qed.

Lemma str_prefix_length (n : nat) (s : string) :
  (n <= String.length s)%nat -> String.length (str_prefix n s) = n.
Proof.
  revert s. induction n as [|n IH]; intros s Hn; [done|].
  destruct s as [|c s]; cbn in *; [lia|]. rewrite IH; lia.
Qed.

Lemma str_prefix_all_hex (n : nat) (s : string) :
  Hashlib.all_hex s = true -> Hashlib.all_hex (str_prefix n s) = true.
Proof.
  revert s. induction n as [|n IH]; intros s; [done|].
  destruct s as [|c s]; [done|]. cbn.
  intros [Hc Hs]%andb_true_iff. by rewrite Hc, IH.
Qed.

(** ** Content hash *)

Lemma compute_content_hash_normal_form (summary memory_type : string) :
  compute_content_hash summary memory_type
  = str_prefix 16
      (Hashlib.sha256_hexdigest
         (PyStr.encode (memory_type +:+ ":"%string +:+ normal_form summary))).
Proof.
  unfold compute_content_hash, normal_form. by rewrite join_split_normal.
Qed.

Lemma compute_content_hash_words (s1 s2 memory_type : string) :
  map PyStr.lower (PyStr.split s1) = map PyStr.lower (PyStr.split s2) ->
  compute_content_hash s1 memory_type = compute_content_hash s2 memory_type.
Proof.
  intros H. unfold compute_content_hash. by rewrite !split_lower, H.
Qed.

(** C5: [compute_content_hash summary memory_type] is the first 16
    hexadecimal characters of the SHA-256 digest of the UTF-8 bytes of
    [memory_type ":" normal_form summary], where the normal form is the
    summary lower-cased, trimmed and with its whitespace runs collapsed to
    single spaces; it has exactly 16 characters, all hexadecimal; two
    summaries that differ in letter case only have the same hash, and so
    have two summaries made of the same words up to letter case, whatever
    whitespace surrounds and separates the words (every summary is such a
    layout of words). *)
Theorem content_hash_spec :
  (forall summary memory_type,
     compute_content_hash summary memory_type
     = str_prefix 16
         (Hashlib.sha256_hexdigest
            (PyStr.encode
               (memory_type +:+ ":"%string +:+ normal_form summary)))
     /\ String.length (compute_content_hash summary memory_type) = 16%nat
     /\ Hashlib.all_hex (compute_content_hash summary memory_type) = true)
  /\ (forall memory_type s1 s2,
        PyStr.lower s1 = PyStr.lower s2 ->
        compute_content_hash s1 memory_type
        = compute_content_hash s2 memory_type)
  /\ (forall memory_type pre1 parts1 pre2 parts2,
        PyStr.all_space pre1 = true -> PyStr.wf_parts parts1 ->
        PyStr.all_space pre2 = true -> PyStr.wf_parts parts2 ->
        map (fun p => PyStr.lower p.1) parts1
        = map (fun p => PyStr.lower p.1) parts2 ->
        compute_content_hash (PyStr.layout pre1 parts1) memory_type
        = compute_content_hash (PyStr.layout pre2 parts2) memory_type)
  /\ (forall summary,
        exists pre parts,
          PyStr.all_space pre = true /\ PyStr.wf_parts parts
          /\ summary = PyStr.layout pre parts).
Proof.
  split; [|split; [|split]].
  - intros summary memory_type. split; [|split].
    + apply compute_content_hash_normal_form.
    + unfold compute_content_hash. apply str_prefix_length.
      rewrite sha256_hexdigest_length. lia.
    + unfold compute_content_hash. apply str_prefix_all_hex, hex_all_hex.
  - intros memory_type s1 s2 H. unfold compute_content_hash. by rewrite H.
  - intros memory_type pre1 parts1 pre2 parts2 Hp1 Hw1 Hp2 Hw2 Hwords.
    apply compute_content_hash_words.
    rewrite !split_layout by done. by rewrite !map_map.
  - apply layout_exists.
Qed.

(** ** The result monad *)

Lemma mapM_cons {A B} (f : A -> result B) (a : A) (l : list A) :
  mapM f (a :: l) = b ← f a; bs ← mapM f l; Ok (b :: bs).
Proof. reflexivity. Qed.




Lemma mapM_length {A B} (f : A -> result B) (l : list A) (ys : list B) :
  mapM f l = Ok ys -> length ys = length l.
Proof.
  revert ys. induction l as [|a l IH]; intros ys.
  { by intros [= <-]. }
  rewrite mapM_cons. destruct (f a) as [b|]; [|done].
  destruct (mapM f l) as [bs|]; [|done]. cbn. intros [= <-]. cbn.
  f_equal. by apply IH.
Qed.



(** ** json.dumps *)









(** ** ToolCallResult.generate_hash and ensure_hash *)


Lemma generate_hash_ok (self : ToolCallResult.t) (h : string) :
  generate_hash self = Ok h ->
  String.length h = 32%nat /\ Hashlib.all_hex h = true /\ h <> EmptyString.
Proof.
  unfold generate_hash. destruct (input_str self) as [s|]; [|done].
  cbn. intros [= <-]. split; [|split].
  - apply md5_hexdigest_length.
  - apply hex_all_hex.
  - apply md5_hexdigest_ne.
Qed.


Lemma generate_hash_set_call_hash (self : ToolCallResult.t) (h : string) :
  generate_hash (ToolCallResult.set_call_hash h self) = generate_hash self.
Proof. by destruct self. Qed.

Lemma ensure_hash_nonempty (self : ToolCallResult.t) :
  ToolCallResult.call_hash self <> EmptyString ->
  ensure_hash self = (Ok tt, self).
Proof.
  intros H. unfold ensure_hash.
  by destruct (String.eqb_spec (ToolCallResult.call_hash self) EmptyString).
Qed.



(** C9: [ensure_hash] stores [generate_hash()] in [call_hash] only when
    [call_hash] is empty, leaves the object alone when it is not, and a
    second call in a row does what the first did and changes nothing. *)
Theorem ensure_hash_idempotent (self : ToolCallResult.t) :
  (ToolCallResult.call_hash self = EmptyString ->
   ensure_hash self
   = match generate_hash self with
     | Ok h => (Ok tt, ToolCallResult.set_call_hash h self)
     | Raise e => (Raise e, self)
     end)
  /\ (ToolCallResult.call_hash self <> EmptyString ->
      ensure_hash self = (Ok tt, self))
  /\ ensure_hash (ensure_hash self).2 = ensure_hash self
  /\ ToolCallResult.call_hash (ensure_hash (ensure_hash self).2).2
     = ToolCallResult.call_hash (ensure_hash self).2.
Proof.
  assert (ensure_hash (ensure_hash self).2 = ensure_hash self) as Htwice.
  { unfold ensure_hash at 2 3.
    destruct (String.eqb_spec (ToolCallResult.call_hash self) EmptyString)
      as [He|Hne]; [|by apply ensure_hash_nonempty].
    destruct (generate_hash self) as [h|e] eqn:Hg; cbn [snd].
    - apply ensure_hash_nonempty. destruct self. cbn.
      by eapply generate_hash_ok.
    - unfold ensure_hash. by rewrite He, Hg. }
  split; [|split; [|split]].
  - intros He. unfold ensure_hash. by rewrite He.
  - apply ensure_hash_nonempty.
  - exact Htwice.
  - by rewrite Htwice.
Qed.

(** ** Ledger accessors *)

Lemma memory_type_tool (item : MemoryItem.t) :
  negb (String.eqb (MemoryItem.memory_type item) "tool") = true
  <-> MemoryItem.memory_type item <> "tool"%string.
Proof.
  destruct (String.eqb_spec (MemoryItem.memory_type item) "tool"); cbn;
    split; congruence.
Qed.

Lemma get_tool_calls_set (item : MemoryItem.t) (v : value) :
  get_tool_calls (set_tool_calls item v) = v.
Proof.
  unfold get_tool_calls, set_tool_calls. destruct item. cbn.
  by rewrite lookup_insert_eq.
Qed.

Lemma set_tool_calls_frame (item : MemoryItem.t) (v : value) :
  unchanged_but_tool_calls item (set_tool_calls item v).
Proof.
  unfold unchanged_but_tool_calls, set_tool_calls. destruct item. cbn.
  repeat split; [by eexists|]. intros key Hkey. by rewrite lookup_insert_ne.
Qed.

(** C8: [get_tool_calls] returns what is stored under [tool_calls] and the
    empty list when [extra] or the key is missing; on an empty ledger
    [get_tool_statistics] returns the statistics that are all zero. *)
Theorem empty_ledger_spec :
  (forall item,
     MemoryItem.extra item = None -> get_tool_calls item = VList [])
  /\ (forall item (m : gmap string value),
        MemoryItem.extra item = Some m -> m !! "tool_calls"%string = None ->
        get_tool_calls item = VList [])
  /\ (forall item (m : gmap string value) v,
        MemoryItem.extra item = Some m -> m !! "tool_calls"%string = Some v ->
        get_tool_calls item = v)
  /\ (forall item recent_n,
        get_tool_calls item = VList [] ->
        get_tool_statistics item recent_n = Ok zero_statistics)
  /\ total_calls zero_statistics = 0
  /\ recent_calls_analyzed zero_statistics = 0
  /\ avg_time_cost zero_statistics = 0%Q
  /\ success_rate zero_statistics = 0%Q
  /\ avg_score zero_statistics = 0%Q
  /\ avg_token_cost zero_statistics = 0%Q.
Proof.
  repeat split.
  - unfold get_tool_calls. by intros item ->.
  - unfold get_tool_calls. intros item m -> Hm. cbn. by rewrite Hm.
  - unfold get_tool_calls. intros item m v -> Hm. cbn. by rewrite Hm.
  - intros item recent_n Hget. unfold get_tool_statistics. by rewrite Hget.
Qed.


(** C10: [set_tool_calls] and a successful [add_tool_call] leave every
    field of the item and every key of [extra] other than [tool_calls] as
    they were, [extra] being a map afterwards; of the result,
    [add_tool_call] changes at most [call_hash]. *)
Theorem ledger_writes_frame :
  (forall item tool_calls,
     unchanged_but_tool_calls item (set_tool_calls item tool_calls))
  /\ (forall item tool_call item' tool_call',
        add_tool_call item tool_call = (Ok tt, item', tool_call') ->
        unchanged_but_tool_calls item item'
        /\ tool_call'
           = ToolCallResult.set_call_hash
               (ToolCallResult.call_hash tool_call') tool_call).
Proof.
  split; [apply set_tool_calls_frame|].
  intros item tool_call item' tool_call'. unfold add_tool_call.
  destruct (negb _); [done|].
  destruct (ensure_hash tool_call) as [[[]|e] tc] eqn:Hens; [|done].
  destruct (get_tool_calls item); try done. intros [= <- <-].
  split; [apply set_tool_calls_frame|].
  unfold ensure_hash in Hens. destruct (String.eqb _ _).
  - destruct (generate_hash tool_call); [|done].
    injection Hens as <-. by destruct tool_call.
  - injection Hens as <-. by destruct tool_call.
Qed.

(** ** Statistics *)

Lemma mapM_map {A B} (f : A -> result B) (g : A -> B) (l : list A) :
  Forall (fun x => f x = Ok (g x)) l -> mapM f l = Ok (map g l).
Proof.
  induction 1 as [|a l Ha _ IH]; [done|]. by rewrite mapM_cons, Ha, IH.
Qed.

Lemma filterM_filter {A} (f : A -> result bool) (p : A -> bool) (l : list A) :
  Forall (fun x => f x = Ok (p x)) l -> filterM f l = Ok (List.filter p l).
Proof.
  induction 1 as [|a l Ha _ IH]; [done|].
  change (filterM f (a :: l))
    with (keep ← f a; rest ← filterM f l;
          Ok (if (keep : bool) then a :: rest else rest)).
  rewrite Ha, IH. cbn. by destruct (p a).
Qed.

Lemma numeric_as_number (v : value) :
  numeric v = true -> exists x, as_number v = Ok x.
Proof. destruct v; try done; by eexists. Qed.

Lemma get_field_number (c : value) (key : string) (dv : value) (dz : Z) :
  well_formed_call c = true ->
  key ∈ ["time_cost"; "score"; "token_cost"]%string ->
  as_number dv = Ok (inject_Z dz) ->
  (v ← get_field c key dv; as_number v) = Ok (field_number c key dz).
Proof.
  destruct c as [| | | | | | |d]; try done. intros Hwf Hkey Hdv.
  cbn [well_formed_call] in Hwf. rewrite forallb_forall in Hwf.
  specialize (Hwf key). rewrite <- list_elem_of_In in Hwf.
  specialize (Hwf Hkey). cbn.
  destruct (dict_get d key) as [v|]; cbn.
  - destruct (numeric_as_number v Hwf) as [x Hx]. by rewrite Hx.
  - by rewrite Hdv.
Qed.

Lemma count_true_filter {A} (p : A -> bool) (l : list A) :
  length (filter (fun b : bool => b = true) (map p l))
  = length (List.filter p l).
Proof.
  induction l as [|a l IH]; [done|].
  change (map p (a :: l)) with (p a :: map p l).
  change (List.filter p (a :: l))
    with (if p a then a :: List.filter p l else List.filter p l).
  destruct (p a) eqn:Hp.
  - rewrite filter_cons_True by done. cbn [length]. by rewrite IH.
  - rewrite filter_cons_False by done. exact IH.
Qed.

Lemma valid_tokens_filter (w : list value) :
  map (fun c => field_number c "token_cost" 0)
    (List.filter
       (fun c => Qle_bool (inject_Z 0) (field_number c "token_cost" (-1))) w)
  = valid_token_costs w.
Proof.
  unfold valid_token_costs. induction w as [|c w IH]; [done|]. cbn.
  destruct (Qle_bool _ (field_number c "token_cost" (-1))) eqn:Hc; [|done].
  cbn. rewrite IH. f_equal.
  destruct c as [| | | | | | |d]; try done.
  unfold field_number in *.
  destruct (dict_get d "token_cost") as [v|]; cbn in *;
    [destruct (as_number v); [done|]|]; by vm_compute in Hc.
Qed.

Lemma mean_map {A} (g : A -> Q) (w : list A) :
  (if Z.of_nat (length w) >? 0
   then (Qsum (map g w) / inject_Z (Z.of_nat (length w)))%Q
   else inject_Z 0)
  = mean (map g w).
Proof. destruct w as [|a w]; [done|]. unfold mean. by rewrite length_map. Qed.

Lemma numbers_of_fields (key : string) (dv : value) (dz : Z) (w : list value) :
  Forall (fun c => well_formed_call c = true) w ->
  key ∈ ["time_cost"; "score"; "token_cost"]%string ->
  as_number dv = Ok (inject_Z dz) ->
  mapM (fun c => v ← get_field c key dv; as_number v) w
  = Ok (map (fun c => field_number c key dz) w).
Proof.
  intros Hwf Hkey Hdv. apply mapM_map.
  eapply Forall_impl; [exact Hwf|]. intros c Hc.
  by apply get_field_number.
Qed.

Lemma flags_of_fields (w : list value) :
  Forall (fun c => well_formed_call c = true) w ->
  mapM (fun c => v ← get_field c "success" (VBool true); Ok (truthy v)) w
  = Ok (map entry_success w).
Proof.
  intros Hwf. apply mapM_map.
  eapply Forall_impl; [exact Hwf|]. by intros [| | | | | | |d] Hc.
Qed.

Lemma valid_calls_of_fields (w : list value) :
  Forall (fun c => well_formed_call c = true) w ->
  filterM (fun c => v ← get_field c "token_cost" (VInt (-1));
                    x ← as_number v; Ok (Qle_bool (inject_Z 0) x)) w
  = Ok (List.filter
          (fun c => Qle_bool (inject_Z 0) (field_number c "token_cost" (-1)))
          w).
Proof.
  intros Hwf. apply filterM_filter.
  eapply Forall_impl; [exact Hwf|]. intros c Hc.
  assert ((v ← get_field c "token_cost" (VInt (-1)); as_number v)
          = Ok (field_number c "token_cost" (-1))) as Hg.
  { apply get_field_number; [done|set_solver|done]. }
  destruct (get_field c "token_cost" (VInt (-1))) as [v|]; cbn in *;
    [|done].
  by rewrite Hg.
Qed.

(** On well-formed entries the code computes the statistics of the design
    document. *)
Lemma window_statistics_spec (total : Z) (w : list value) :
  Forall (fun c => well_formed_call c = true) w ->
  window_statistics total w = Ok (spec_statistics total w).
Proof.
  intros Hwf. unfold window_statistics.
  rewrite (numbers_of_fields "time_cost" (VFloat (inject_Z 0)) 0 w);
    [|done|set_solver|done].
  rewrite (numbers_of_fields "score" (VFloat (inject_Z 0)) 0 w);
    [|done|set_solver|done].
  rewrite (flags_of_fields w), (valid_calls_of_fields w) by done.
  cbn [mbind result_bind].
  rewrite (numbers_of_fields "token_cost" (VInt 0) 0);
    [|rewrite Forall_forall in Hwf |- *|set_solver|done].
  2: { intros c Hc%list_elem_of_In%filter_In.
       apply Hwf, list_elem_of_In, Hc. }
  cbn [mbind result_bind]. unfold spec_statistics. f_equal. f_equal.
  - by rewrite mean_map.
  - rewrite count_true_filter. by destruct w.
  - by rewrite mean_map.
  - rewrite <- (valid_tokens_filter w). unfold mean.
    rewrite length_map. by destruct (List.filter _ w).
Qed.

Lemma slice_from_positive {A} (n : Z) (l : list A) :
  1 <= n ->
  slice_from (- n) l = last_entries n l
  /\ Z.of_nat (length (slice_from (- n) l)) = Z.min n (Z.of_nat (length l)).
Proof.
  intros Hn. unfold slice_from, last_entries.
  destruct (Z.ltb_spec (- n) 0) as [_|?]; [|lia].
  replace (Z.to_nat (Z.max (- n + Z.of_nat (length l)) 0))
    with (length l - Z.to_nat n)%nat by lia.
  split; [done|]. rewrite length_drop. lia.
Qed.

Lemma slice_from_zero {A} (l : list A) : slice_from (- 0) l = l.
Proof.
  unfold slice_from. change (- 0 <? 0) with false. cbn iota.
  change (- 0) with 0. by rewrite Z.min_l by lia.
Qed.

Lemma get_tool_statistics_list (item : MemoryItem.t) (l : list value)
    (recent_n : Z) :
  get_tool_calls item = VList l -> l <> [] ->
  get_tool_statistics item recent_n
  = window_statistics (Z.of_nat (length l)) (slice_from (- recent_n) l).
Proof.
  intros Hget Hl. unfold get_tool_statistics. rewrite Hget. by destruct l.
Qed.

(** With [recent_n >= 1] the window is the last [recent_n] entries. *)
Lemma statistics_recent_positive (item : MemoryItem.t) (l : list value)
    (recent_n : Z) :
  get_tool_calls item = VList l -> l <> [] -> 1 <= recent_n ->
  Forall (fun c => well_formed_call c = true) l ->
  get_tool_statistics item recent_n
  = Ok (spec_statistics (Z.of_nat (length l)) (last_entries recent_n l))
  /\ Z.of_nat (length (last_entries recent_n l))
     = Z.min recent_n (Z.of_nat (length l)).
Proof.
  intros Hget Hl Hn Hwf. rewrite (get_tool_statistics_list item l) by done.
  destruct (slice_from_positive recent_n l Hn) as [Hs Hlen].
  rewrite <- Hs. split; [|done]. apply window_statistics_spec.
  unfold slice_from. by apply Forall_drop.
Qed.

(** With [recent_n = 0] the window is the whole ledger. *)
Lemma statistics_recent_zero (item : MemoryItem.t) (l : list value) :
  get_tool_calls item = VList l -> l <> [] ->
  Forall (fun c => well_formed_call c = true) l ->
  get_tool_statistics item 0
  = Ok (spec_statistics (Z.of_nat (length l)) l).
Proof.
  intros Hget Hl Hwf. rewrite (get_tool_statistics_list item l) by done.
  rewrite slice_from_zero. by apply window_statistics_spec.
Qed.



(** C1 (the code departs from the claim at [recent_n = 0]): on the ledger
    of three calls with time costs 1.0, 0.1, 0.1 and successes false, true,
    true, [recent_n = 2] analyses the last two calls, with success rate 1.0
    and 3 calls in total, as claimed; [recent_n = 0] analyses all three
    calls, where the claim gives [min 0 3 = 0] calls. *)
Theorem statistics_recent_n_zero :
  get_tool_statistics (tool_item recent_n_calls) 2
  = Ok (mk_statistics 3 2 (1 # 10) 1 1 0)
  /\ get_tool_statistics (tool_item recent_n_calls) 0
     = Ok (mk_statistics 3 3 (2 # 5) (6667 # 10000) (667 # 1000) 0)
  /\ Z.min 0 3 = 0.
Proof. repeat split; by vm_compute. Qed.

(** ** Scope composition *)

Lemma sorted_spec (names : gset string) :
  StronglySorted String.le (sorted names)
  /\ NoDup (sorted names)
  /\ forall f, f ∈ sorted names <-> f ∈ names.
Proof.
  unfold sorted. split; [|split].
  - apply StronglySorted_merge_sort; apply _.
  - rewrite merge_sort_Permutation. apply NoDup_elements.
  - intros f. by rewrite merge_sort_Permutation, elem_of_elements.
Qed.

Lemma overlap_spec (user_model core_model : model) (f : string) :
  f ∈ (list_to_set (model_fields user_model)
       ∩ list_to_set (model_fields core_model) : gset string)
  <-> f ∈ model_fields user_model /\ f ∈ model_fields core_model.
Proof. by rewrite elem_of_intersection, !elem_of_list_to_set. Qed.


(** ** Sensitivity of the hashed text *)

Lemma append_length (s t : string) :
  String.length (s +:+ t) = (String.length s + String.length t)%nat.
Proof.
  induction s as [|c s IH]; [done|]. rewrite append_cons. cbn. by rewrite IH.
Qed.

Lemma append_inj_r (a b t : string) : a +:+ t = b +:+ t -> a = b.
Proof.
  revert b. induction a as [|c a IH]; intros [|c' b] H.
  - done.
  - apply (f_equal String.length) in H.
    rewrite !append_length in H. cbn in H. lia.
  - apply (f_equal String.length) in H.
    rewrite !append_length in H. cbn in H. lia.
  - rewrite !append_cons in H. injection H as -> H. f_equal. by apply IH.
Qed.

Lemma decode_encode_char (c : ascii) (bs : list Z) :
  PyStr.decode_char (PyStr.encode_char c ++ bs) = Some (c, bs).
Proof. by destruct c as [[] [] [] [] [] [] [] []]. Qed.

(** UTF-8 encoding is injective. *)
Lemma encode_inj (s1 s2 : string) :
  PyStr.encode s1 = PyStr.encode s2 -> s1 = s2.
Proof.
  revert s2. induction s1 as [|c1 s1 IH]; intros [|c2 s2] H;
    try apply (f_equal PyStr.decode_char) in H; cbn [PyStr.encode] in H;
    rewrite ?decode_encode_char in H; try done.
  injection H as -> H. f_equal. by apply IH.
Qed.

Lemma combined_inj (n1 n2 s1 s2 o1 o2 : string) :
  n1 = n2 /\ s1 = s2 \/ n1 = n2 /\ o1 = o2 \/ s1 = s2 /\ o1 = o2 ->
  combined n1 s1 o1 = combined n2 s2 o2 ->
  n1 = n2 /\ s1 = s2 /\ o1 = o2.
Proof.
  unfold combined. intros [[-> ->]|[[-> ->]| [-> ->]]] H.
  - rewrite <- !append_assoc in H. by apply (inj _) in H as ->.
  - rewrite <- !(append_assoc n2 "|") in H. apply (inj _) in H.
    by apply append_inj_r in H as ->.
  - by apply append_inj_r in H as ->.
Qed.

(** C7, as amended: results with the same name, input and output have the
    same hash; the hash is the MD5 digest of the bytes of
    [tool_name "|" input_str "|" output]; changing exactly one of
    [tool_name], [input_str] and [output] changes these bytes; and a change
    of input that keeps [input_str] keeps the hash. *)
Theorem generate_hash_sensitivity :
  (forall r1 r2,
     ToolCallResult.tool_name r1 = ToolCallResult.tool_name r2 ->
     ToolCallResult.input r1 = ToolCallResult.input r2 ->
     ToolCallResult.output r1 = ToolCallResult.output r2 ->
     generate_hash r1 = generate_hash r2)
  /\ (forall self,
        generate_hash self
        = s ← input_str self;
          Ok (Hashlib.md5_hexdigest
                (PyStr.encode
                   (combined (ToolCallResult.tool_name self) s
                             (ToolCallResult.output self)))))
  /\ (forall n1 n2 s o,
        n1 <> n2 ->
        PyStr.encode (combined n1 s o) <> PyStr.encode (combined n2 s o))
  /\ (forall n s1 s2 o,
        s1 <> s2 ->
        PyStr.encode (combined n s1 o) <> PyStr.encode (combined n s2 o))
  /\ (forall n s o1 o2,
        o1 <> o2 ->
        PyStr.encode (combined n s o1) <> PyStr.encode (combined n s o2))
  /\ (forall r1 r2,
        ToolCallResult.tool_name r1 = ToolCallResult.tool_name r2 ->
        input_str r1 = input_str r2 ->
        ToolCallResult.output r1 = ToolCallResult.output r2 ->
        generate_hash r1 = generate_hash r2).
Proof.
  split; [|split; [done|split; [|split; [|split]]]].
  - intros r1 r2 Hn Hi Ho. unfold generate_hash, input_str.
    by rewrite Hn, Hi, Ho.
  - intros n1 n2 s o Hne H%encode_inj%combined_inj; [|by auto]. by destruct H.
  - intros n s1 s2 o Hne H%encode_inj%combined_inj; [|by auto].
    by destruct H as (_ & ? & _).
  - intros n s o1 o2 Hne H%encode_inj%combined_inj; [|by auto].
    by destruct H as (_ & _ & ?).
  - intros r1 r2 Hn Hi Ho. unfold generate_hash. by rewrite Hn, Hi, Ho.
Qed.

(** * Further properties of the code *)

(** ** The window of get_tool_statistics *)




(** ** When get_tool_statistics returns *)

Lemma mapM_ok_inv {A B} (f : A -> result B) (l : list A) (ys : list B) :
  mapM f l = Ok ys -> Forall (fun x => exists y, f x = Ok y) l.
Proof.
  revert ys. induction l as [|a l IH]; intros ys; [by constructor|].
  rewrite mapM_cons. destruct (f a) as [b|] eqn:Ha; [|done].
  destruct (mapM f l) as [bs|]; [|done]. intros _.
  constructor; [by exists b|by eapply IH].
Qed.

Lemma filterM_cons {A} (f : A -> result bool) (a : A) (l : list A) :
  filterM f (a :: l)
  = keep ← f a; rest ← filterM f l;
    Ok (if (keep : bool) then a :: rest else rest).
Proof. reflexivity. Qed.

Lemma filterM_ok_inv {A} (f : A -> result bool) (l ys : list A) :
  filterM f l = Ok ys -> Forall (fun x => exists y, f x = Ok y) l.
Proof.
  revert ys. induction l as [|a l IH]; intros ys; [by constructor|].
  rewrite filterM_cons. destruct (f a) as [b|] eqn:Ha; [|done].
  destruct (filterM f l) as [bs|]; [|done]. intros _.
  constructor; [by exists b|by eapply IH].
Qed.


Lemma as_number_numeric (v : value) (x : Q) :
  as_number v = Ok x -> numeric v = true.
Proof. by destruct v. Qed.



Lemma field_number_ok (c : value) (key : string) (dv : value) (x : Q) :
  (v ← get_field c key dv; as_number v) = Ok x ->
  exists d, c = VDict d
            /\ match dict_get d key with
               | Some v => numeric v = true
               | None => True
               end.
Proof.
  destruct c as [| | | | | | |d]; try done. cbn. intros H. exists d.
  split; [done|]. destruct (dict_get d key) as [v|]; [|done].
  by eapply as_number_numeric.
Qed.

Lemma window_statistics_ok_inv (total : Z) (w : list value) (st : statistics) :
  window_statistics total w = Ok st ->
  Forall (fun c => well_formed_call c = true) w.
Proof.
  unfold window_statistics.
  destruct (mapM (fun c => v ← get_field c "time_cost" (VFloat (inject_Z 0));
                           as_number v) w) as [times|] eqn:Ht;
    cbn [mbind result_bind]; [|done].
  destruct (mapM (fun c => v ← get_field c "success" (VBool true);
                           Ok (truthy v)) w) as [flags|];
    cbn [mbind result_bind]; [|done].
  destruct (mapM (fun c => v ← get_field c "score" (VFloat (inject_Z 0));
                           as_number v) w) as [scores|] eqn:Hs;
    cbn [mbind result_bind]; [|done].
  destruct (filterM _ w) as [valid|] eqn:Hv; cbn [mbind result_bind]; [|done].
  intros _.
  apply mapM_ok_inv in Ht, Hs. apply filterM_ok_inv in Hv.
  rewrite Forall_forall in Ht, Hs, Hv. apply Forall_forall. intros c Hc.
  destruct (Ht c Hc) as [x Hx]. destruct (Hs c Hc) as [y Hy].
  destruct (Hv c Hc) as [b Hb].
  assert (exists z, (v ← get_field c "token_cost" (VInt (-1));
                     as_number v) = Ok z) as [z Hz].
  { destruct (get_field c "token_cost" (VInt (-1))) as [v|]; [|done].
    cbn in Hb |- *. destruct (as_number v) as [z|]; [by exists z|done]. }
  apply field_number_ok in Hx as (d & -> & Htime).
  apply field_number_ok in Hy as (d' & [= <-] & Hscore).
  apply field_number_ok in Hz as (d' & [= <-] & Htoken).
  cbn [well_formed_call forallb].
  destruct (dict_get d "time_cost"), (dict_get d "score"),
    (dict_get d "token_cost"); by rewrite ?Htime, ?Hscore, ?Htoken.
Qed.



(** ** Rounding *)

Lemma round_half_even_near (x : Q) :
  (inject_Z (round_half_even x) - (1 # 2) <= x
   /\ x <= inject_Z (round_half_even x) + (1 # 2))%Q.
Proof.
  unfold round_half_even.
  pose proof (Qfloor_le x) as Hlo. pose proof (Qlt_floor x) as Hhi.
  rewrite inject_Z_plus in Hhi. change (inject_Z 1) with 1%Q in Hhi.
  destruct (Qcompare_spec (x - inject_Z (Qfloor x)) (1 # 2)) as [He|Hl|Hg].
  - destruct (Z.even (Qfloor x)); rewrite ?inject_Z_plus;
      change (inject_Z 1) with 1%Q; lra.
  - lra.
  - rewrite inject_Z_plus. change (inject_Z 1) with 1%Q. lra.
Qed.

Lemma round_half_even_bounds (a b : Z) (x : Q) :
  (inject_Z a <= x)%Q -> (x <= inject_Z b)%Q ->
  a <= round_half_even x <= b.
Proof.
  intros Ha Hb. destruct (round_half_even_near x) as [Hlo Hhi].
  split.
  - destruct (Z.le_gt_cases a (round_half_even x)) as [|Hgt]; [done|].
    assert (round_half_even x + 1 <= a) as Hle by lia.
    rewrite Zle_Qle, inject_Z_plus in Hle.
    change (inject_Z 1) with 1%Q in Hle. lra.
  - destruct (Z.le_gt_cases (round_half_even x) b) as [|Hgt]; [done|].
    assert (b + 1 <= round_half_even x) as Hle by lia.
    rewrite Zle_Qle, inject_Z_plus in Hle.
    change (inject_Z 1) with 1%Q in Hle. lra.
Qed.

Lemma pow10_pos (ndigits : nat) : (0 < inject_Z (10 ^ Z.of_nat ndigits))%Q.
Proof.
  rewrite <- (Zlt_Qlt 0). apply Z.pow_pos_nonneg; lia.
Qed.

(** [round] keeps a value between the integers that bound it. *)
Lemma py_round_bounds (a b : Z) (x : Q) (ndigits : nat) :
  (inject_Z a <= x)%Q -> (x <= inject_Z b)%Q ->
  (inject_Z a <= py_round x ndigits /\ py_round x ndigits <= inject_Z b)%Q.
Proof.
  intros Ha Hb. unfold py_round.
  pose proof (pow10_pos ndigits) as Hp.
  set (p := 10 ^ Z.of_nat ndigits) in *.
  destruct (round_half_even_bounds (a * p) (b * p) (x * inject_Z p))
    as [Hlo Hhi].
  { rewrite inject_Z_mult. apply Qmult_le_compat_r; lra. }
  { rewrite inject_Z_mult. apply Qmult_le_compat_r; lra. }
  rewrite Zle_Qle, inject_Z_mult in Hlo, Hhi.
  rewrite Qred_correct. split.
  - by apply Qle_shift_div_l.
  - by apply Qle_shift_div_r.
Qed.

Lemma py_round_nonneg (x : Q) (ndigits : nat) :
  (0 <= x)%Q -> (0 <= py_round x ndigits)%Q.
Proof.
  intros Hx. unfold py_round. pose proof (pow10_pos ndigits) as Hp.
  set (p := inject_Z (10 ^ Z.of_nat ndigits)) in *.
  destruct (round_half_even_near (x * p)) as [_ Hhi].
  assert ((0 <= x * p)%Q) as Hxp by (apply Qmult_le_0_compat; lra).
  assert (0 <= round_half_even (x * p)) as Hr.
  { destruct (Z.le_gt_cases 0 (round_half_even (x * p))) as [|Hgt]; [done|].
    assert (round_half_even (x * p) + 1 <= 0) as Hle by lia.
    rewrite Zle_Qle, inject_Z_plus in Hle.
    change (inject_Z 1) with 1%Q in Hle. change (inject_Z 0) with 0%Q in Hle.
    lra. }
  rewrite Qred_correct. apply Qle_shift_div_l; [done|].
  assert ((0 * p == 0)%Q) as -> by ring.
  by rewrite <- (Zle_Qle 0).
Qed.


(** ** Ranges and accuracy of the statistics *)

Lemma fold_Qplus_nonneg (l : list Q) (acc : Q) :
  (0 <= acc)%Q -> Forall (fun x => (0 <= x)%Q) l ->
  (0 <= fold_left Qplus l acc)%Q.
Proof.
  revert acc. induction l as [|x l IH]; intros acc Hacc Hl; [done|].
  apply Forall_cons in Hl as [Hx Hl]. cbn. apply IH; [lra|done].
Qed.

Lemma mean_nonneg (l : list Q) :
  Forall (fun x => (0 <= x)%Q) l -> (0 <= mean l)%Q.
Proof.
  intros Hl. unfold mean. destruct l as [|x l]; [done|].
  apply Qle_shift_div_l.
  - rewrite <- (Zlt_Qlt 0). cbn [length]. lia.
  - assert ((0 * inject_Z (Z.of_nat (length (x :: l))) == 0)%Q) as -> by ring.
    by apply fold_Qplus_nonneg.
Qed.

Lemma valid_token_costs_nonneg (w : list value) :
  Forall (fun x => (0 <= x)%Q) (valid_token_costs w).
Proof.
  apply Forall_forall. intros x [_ Hx]%list_elem_of_In%filter_In.
  by apply Qle_bool_iff in Hx.
Qed.

Lemma success_fraction_bounds (w : list value) :
  (0 <= success_fraction w /\ success_fraction w <= 1)%Q.
Proof.
  unfold success_fraction. destruct w as [|c w]; [done|].
  set (n := length (c :: w)).
  assert (0 < n)%nat as Hn by (unfold n; cbn; lia).
  assert (length (List.filter entry_success (c :: w)) <= n)%nat as Hle
    by (pose proof (List.filter_length entry_success (c :: w)); lia).
  assert ((0 < inject_Z (Z.of_nat n))%Q) as Hpos.
  { rewrite <- (Zlt_Qlt 0). lia. }
  split.
  - apply Qle_shift_div_l; [done|].
    assert ((0 * inject_Z (Z.of_nat n) == 0)%Q) as -> by ring.
    rewrite <- (Zle_Qle 0). lia.
  - apply Qle_shift_div_r; [done|].
    assert ((1 * inject_Z (Z.of_nat n) == inject_Z (Z.of_nat n))%Q) as ->
      by ring.
    rewrite <- Zle_Qle. lia.
Qed.

Lemma slice_from_length {A} (start : Z) (l : list A) :
  (length (slice_from start l) <= length l)%nat.
Proof. unfold slice_from. rewrite length_drop. lia. Qed.

(** X3: whatever statistics [get_tool_statistics] returns for a ledger that
    is a list, the number of analysed calls is between 0 and the total
    number of calls, the success rate is between 0 and 1, and the average
    token cost is not negative (the sentinel [-1] never enters it). *)
Theorem statistics_ranges (item : MemoryItem.t) (l : list value)
    (recent_n : Z) (st : statistics) :
  get_tool_calls item = VList l ->
  get_tool_statistics item recent_n = Ok st ->
  0 <= recent_calls_analyzed st <= total_calls st
  /\ (0 <= success_rate st /\ success_rate st <= 1)%Q
  /\ (0 <= avg_token_cost st)%Q.
Proof.
  intros Hget Hst. destruct l as [|c l].
  { unfold get_tool_statistics in Hst. rewrite Hget in Hst.
    injection Hst as <-. by cbn. }
  rewrite (get_tool_statistics_list item (c :: l)) in Hst by done.
  pose proof (window_statistics_ok_inv _ _ _ Hst) as Hwf.
  rewrite (window_statistics_spec _ _ Hwf) in Hst. injection Hst as <-.
  cbn [spec_statistics recent_calls_analyzed total_calls success_rate
       avg_token_cost].
  split; [|split].
  - pose proof (slice_from_length (- recent_n) (c :: l)) as Hlen.
    cbn [length] in Hlen. lia.
  - apply (py_round_bounds 0 1); apply success_fraction_bounds.
  - apply py_round_nonneg, mean_nonneg, valid_token_costs_nonneg.
Qed.



(** ** Statistics of a ledger of dumped results *)











(** ** When the hash of a result can be computed *)







(** ** The outcomes of add_tool_call on a tool memory *)




(** ** add_tool_call followed by get_tool_statistics *)

Lemma add_tool_call_ok_inv (item item' : MemoryItem.t)
    (tool_call tool_call' : ToolCallResult.t) :
  add_tool_call item tool_call = (Ok tt, item', tool_call') ->
  MemoryItem.memory_type item = "tool"%string
  /\ ensure_hash tool_call = (Ok tt, tool_call')
  /\ exists l,
       get_tool_calls item = VList l
       /\ item' = set_tool_calls item (VList (l ++ [model_dump tool_call'])).
Proof.
  unfold add_tool_call.
  destruct (negb (String.eqb (MemoryItem.memory_type item) "tool")) eqn:Ht;
    [done|].
  apply negb_false_iff, String.eqb_eq in Ht.
  destruct (ensure_hash tool_call) as [[[]|e] c'] eqn:Hens; [|done].
  destruct (get_tool_calls item) as [| | | | | |l|]; try done.
  intros [= <- <-]. split; [done|]. split; [done|]. by exists l.
Qed.





(** ** Writing and reading the ledger *)

(** X10: [get_tool_calls] reads back what [set_tool_calls] wrote, a second
    [set_tool_calls] replaces the first, and writing back the ledger that is
    stored changes nothing. *)
Theorem tool_calls_round_trip :
  (forall item v, get_tool_calls (set_tool_calls item v) = v)
  /\ (forall item v1 v2,
        set_tool_calls (set_tool_calls item v1) v2 = set_tool_calls item v2)
  /\ (forall item m,
        MemoryItem.extra item = Some m ->
        m !! "tool_calls"%string = Some (get_tool_calls item)
        /\ (forall v, m !! "tool_calls"%string = Some v ->
                      set_tool_calls item v = item)
        \/ m !! "tool_calls"%string = None /\ get_tool_calls item = VList []).
Proof.
  split; [|split].
  - apply get_tool_calls_set.
  - intros item v1 v2. unfold set_tool_calls. destruct item. cbn.
    by rewrite insert_insert_eq.
  - intros item m Hm. unfold get_tool_calls, set_tool_calls. rewrite Hm. cbn.
    destruct (m !! "tool_calls"%string) as [v|] eqn:Hv; [left|by right].
    split; [done|]. intros v' [= <-]. destruct item. cbn in *. subst.
    by rewrite insert_id.
Qed.

(** ** The text hashed by compute_content_hash *)

Lemma lower_char_idem (c : ascii) :
  PyStr.lower_char (PyStr.lower_char c) = PyStr.lower_char c.
Proof. by destruct c as [[] [] [] [] [] [] [] []]. Qed.

Lemma lower_idem (s : string) : PyStr.lower (PyStr.lower s) = PyStr.lower s.
Proof.
  induction s as [|c s IH]; [done|]. cbn. by rewrite lower_char_idem, IH.
Qed.

Lemma lower_join (ws : list string) :
  PyStr.lower (PyStr.join " " ws) = PyStr.join " " (map PyStr.lower ws).
Proof.
  induction ws as [|w ws IH]; [done|].
  destruct ws as [|w' ws]; [done|].
  rewrite join_cons by done.
  change (map PyStr.lower (w :: w' :: ws))
    with (PyStr.lower w :: map PyStr.lower (w' :: ws)).
  rewrite (join_cons " " (PyStr.lower w) (map PyStr.lower (w' :: ws)))
    by (by cbn [map]).
  by rewrite !lower_app, IH.
Qed.

Lemma no_space_app (s t : string) :
  PyStr.no_space (s +:+ t) = PyStr.no_space s && PyStr.no_space t.
Proof.
  induction s as [|c s IH]; [done|]. rewrite append_cons. cbn.
  by rewrite IH, andb_assoc.
Qed.

Lemma flush_words (cur : string) :
  PyStr.no_space cur = true -> Forall is_word (PyStr.flush cur).
Proof.
  intros Hcur. destruct cur as [|c cur]; [by constructor|].
  constructor; [|by constructor]. by split.
Qed.

Lemma split_from_words (s cur : string) :
  PyStr.no_space cur = true -> Forall is_word (PyStr.split_from cur s).
Proof.
  revert cur. induction s as [|c s IH]; intros cur Hcur.
  - by apply flush_words.
  - rewrite split_from_cons. destruct (PyStr.isspace c) eqn:Hc.
    + apply Forall_app. split; [by apply flush_words|by apply IH].
    + apply IH. rewrite no_space_app, Hcur. cbn. by rewrite Hc.
Qed.

Lemma split_words (s : string) : Forall is_word (PyStr.split s).
Proof. by apply split_from_words. Qed.

Lemma split_join_words (ws : list string) :
  Forall is_word ws -> PyStr.split (PyStr.join " " ws) = ws.
Proof.
  unfold PyStr.split. induction ws as [|w ws IH]; intros Hws; [done|].
  apply Forall_cons in Hws as [[Hne Hw] Hws].
  destruct ws as [|w' ws].
  - cbn [PyStr.join]. rewrite <- (append_nil_r w) at 1.
    rewrite split_from_word by done. cbn. by apply flush_ne.
  - rewrite join_cons by done. rewrite split_from_word by done.
    change (EmptyString +:+ w) with w.
    change (" " +:+ PyStr.join " " (w' :: ws))%string
      with (String " "%char (PyStr.join " " (w' :: ws))).
    rewrite split_from_cons. change (PyStr.isspace " ") with true. cbn match.
    rewrite flush_ne by done. by rewrite IH.
Qed.

Lemma is_word_lower (w : string) : is_word w -> is_word (PyStr.lower w).
Proof.
  intros [Hne Hw]. split.
  - by destruct w.
  - clear Hne. induction w as [|c w IH]; [done|]. cbn in *.
    rewrite isspace_lower_char. apply andb_true_iff in Hw as [-> Hw].
    by rewrite IH.
Qed.

Lemma normal_form_words (s : string) :
  normal_form s = PyStr.join " " (map PyStr.lower (PyStr.split s)).
Proof. unfold normal_form. by rewrite <- join_split_normal, split_lower. Qed.

Lemma split_normal_form (s : string) :
  PyStr.split (normal_form s) = map PyStr.lower (PyStr.split s).
Proof.
  rewrite normal_form_words. apply split_join_words.
  apply Forall_forall. intros w (w' & <- & Hw')%list_elem_of_In%in_map_iff.
  apply is_word_lower.
  by apply (proj1 (Forall_forall _ _) (split_words s)), list_elem_of_In.
Qed.

Lemma normal_form_idem (s : string) : normal_form (normal_form s) = normal_form s.
Proof.
  rewrite (normal_form_words (normal_form s)), split_normal_form, map_map.
  rewrite (map_ext _ PyStr.lower) by (intros; apply lower_idem).
  by rewrite <- normal_form_words.
Qed.

Lemma split_all_space (s : string) :
  PyStr.all_space s = true -> PyStr.split s = [].
Proof.
  intros Hs. unfold PyStr.split. rewrite <- (append_nil_r s).
  by rewrite split_from_spaces.
Qed.

(** X11: the summary is hashed through its normal form only.  The normal
    form is a fixed point of the normalization, so hashing an already
    normalized summary gives the hash of the original; its words are the
    lower-cased words of the summary; and a summary of whitespace only, like
    the empty one, hashes as the empty summary does. *)
Theorem content_hash_of_normal_form :
  (forall s, normal_form (normal_form s) = normal_form s)
  /\ (forall s memory_type,
        compute_content_hash (normal_form s) memory_type
        = compute_content_hash s memory_type)
  /\ (forall s, PyStr.split (normal_form s) = map PyStr.lower (PyStr.split s))
  /\ (forall s memory_type,
        PyStr.all_space s = true ->
        normal_form s = EmptyString
        /\ compute_content_hash s memory_type
           = compute_content_hash EmptyString memory_type).
Proof.
  split; [apply normal_form_idem|]. split; [|split].
  - intros s mt. rewrite !compute_content_hash_normal_form.
    by rewrite normal_form_idem.
  - apply split_normal_form.
  - intros s mt Hs. split.
    + by rewrite normal_form_words, split_all_space.
    + apply compute_content_hash_words. by rewrite split_all_space.
Qed.

Lemma append_nil_l (s : string) : EmptyString +:+ s = s.
Proof. done. Qed.

Lemma no_colon_split (a a' b b' : string) :
  no_colon a = true -> no_colon a' = true ->
  a +:+ ":"%string +:+ b = a' +:+ ":"%string +:+ b' -> a = a' /\ b = b'.
Proof.
  revert a'. induction a as [|c a IH]; intros [|c' a'] Ha Ha' H;
    rewrite ?append_cons, ?append_nil_l in H.
  - by injection H as ->.
  - injection H as <- _. done.
  - injection H as -> _. done.
  - injection H as -> H. cbn in Ha, Ha'.
    apply andb_true_iff in Ha as [_ Ha]. apply andb_true_iff in Ha' as [_ Ha'].
    by destruct (IH a' Ha Ha' H) as [-> ->].
Qed.

Lemma join_words_head (p w : string) (ws : list string) :
  p +:+ PyStr.join " " (w :: ws) = PyStr.join " " ((p +:+ w) :: ws).
Proof.
  destruct ws as [|w' ws]; [done|].
  rewrite (join_cons " " w (w' :: ws)), (join_cons " " (p +:+ w) (w' :: ws))
    by done.
  by rewrite append_assoc.
Qed.

Lemma normal_form_colon (s : string) :
  normal_form (":"%string +:+ normal_form s) = ":"%string +:+ normal_form s.
Proof.
  rewrite (normal_form_words (_ +:+ _)), (normal_form_words s).
  pose proof (split_words s) as Hws.
  destruct (PyStr.split s) as [|w ws]; [done|].
  cbn [map]. rewrite join_words_head.
  apply Forall_cons in Hws as [Hw Hws].
  assert (Forall is_word (map PyStr.lower ws)) as Hlws.
  { apply Forall_forall. intros x (y & <- & Hy)%list_elem_of_In%in_map_iff.
    apply is_word_lower.
    by apply (proj1 (Forall_forall _ _) Hws), list_elem_of_In. }
  rewrite split_join_words.
  - cbn [map]. rewrite lower_app, lower_idem, map_map.
    by rewrite (map_ext (fun x => PyStr.lower (PyStr.lower x)) PyStr.lower)
      by (intros; apply lower_idem).
  - apply Forall_cons. split; [|done]. split; [done|].
    rewrite no_space_app. by destruct (is_word_lower w Hw) as [_ ->].
Qed.

(** X12: the text that is hashed separates the memory type from the summary
    by a colon.  None of the six memory types of [MemoryType] contains one,
    and between memory types without a colon the hashed text of two memories
    is the same exactly when they have the same type and the same words up
    to letter case.  A memory type that ends in a colon, which nothing
    rejects, is hashed like the type without it and a summary that starts
    with a colon. *)
Theorem content_text_equal_iff :
  Forall (fun memory_type => no_colon memory_type = true) MemoryType
  /\ (forall mt1 mt2 s1 s2,
        no_colon mt1 = true -> no_colon mt2 = true ->
        PyStr.encode (mt1 +:+ ":"%string +:+ normal_form s1)
        = PyStr.encode (mt2 +:+ ":"%string +:+ normal_form s2)
        <-> mt1 = mt2
            /\ map PyStr.lower (PyStr.split s1)
               = map PyStr.lower (PyStr.split s2))
  /\ (forall memory_type s,
        compute_content_hash s (memory_type +:+ ":"%string)
        = compute_content_hash (":"%string +:+ normal_form s) memory_type).
Proof.
  split; [by repeat constructor|]. split.
  - intros mt1 mt2 s1 s2 H1 H2. split.
    + intros H%encode_inj. destruct (no_colon_split _ _ _ _ H1 H2 H) as [-> Hn].
      split; [done|]. by rewrite <- !split_normal_form, Hn.
    + intros [-> Hw]. by rewrite !normal_form_words, Hw.
  - intros mt s. rewrite !compute_content_hash_normal_form.
    by rewrite normal_form_colon, append_assoc.
Qed.

(** ** Scoped models *)

Lemma merge_scope_model_cases (user_model core_model : model)
    (name_suffix : string) :
  (disjoint_fields user_model core_model
   /\ merge_scope_model user_model core_model name_suffix
      = Ok (mk_model
              (model_name user_model +:+ model_name core_model +:+ name_suffix)
              (model_fields core_model ++ model_fields user_model)
              ExtraAllow))
  \/ (exists names,
        merge_scope_model user_model core_model name_suffix
        = Raise (TypeError (conflict_msg names))
        /\ names <> []
        /\ forall f, f ∈ names
                     <-> f ∈ model_fields user_model
                         /\ f ∈ model_fields core_model).
Proof.
  unfold merge_scope_model.
  set (overlap := list_to_set (model_fields user_model)
                  ∩ list_to_set (model_fields core_model) : gset string).
  destruct (sorted_spec overlap) as (_ & _ & Hin).
  destruct (decide (overlap = ∅)) as [Hempty|Hne]; [left|right].
  - split; [|done]. intros f Hu Hc.
    assert (f ∈ overlap) as Hf by by apply overlap_spec.
    rewrite Hempty in Hf. by apply not_elem_of_empty in Hf.
  - exists (sorted overlap). split; [done|]. split.
    + intros Hnil. apply Hne. apply set_eq. intros f.
      rewrite <- Hin, Hnil. split; [by intros ?%elem_of_nil|].
      by intros ?%not_elem_of_empty.
    + intros f. by rewrite Hin, <- overlap_spec.
Qed.

Lemma reserved_fields_spec (f : string) :
  f ∈ reserved_fields <-> exists core, core ∈ core_models /\ f ∈ model_fields core.
Proof.
  assert (Forall (fun f => f ∈ mjoin (model_fields <$> core_models))
            reserved_fields) as H1
    by (apply (bool_decide_unpack _); by vm_compute).
  assert (Forall (fun f => f ∈ reserved_fields)
            (mjoin (model_fields <$> core_models))) as H2
    by (apply (bool_decide_unpack _); by vm_compute).
  rewrite Forall_forall in H1, H2. split.
  - intros (l & Hf & (core & -> & Hcore)%list_elem_of_fmap)%H1%list_elem_of_join.
    by exists core.
  - intros (core & Hcore & Hf). apply H2, list_elem_of_join.
    exists (model_fields core). split; [done|]. by apply list_elem_of_fmap_2.
Qed.

Lemma merged_fields (user core : list string) (f : string) :
  f ∈ core ++ user <-> f ∈ user \/ f ∈ core.
Proof. rewrite elem_of_app. tauto. Qed.

Lemma conflict_reserved (user_model core : model) (names : list string) :
  core ∈ core_models -> names <> [] ->
  (forall f, f ∈ names
             <-> f ∈ model_fields user_model /\ f ∈ model_fields core) ->
  ~ (forall f, f ∈ model_fields user_model -> f ∉ reserved_fields).
Proof.
  intros Hcore Hne Hnames Hfree. destruct names as [|f names]; [done|].
  destruct (proj1 (Hnames f)) as [Hu Hc]; [by left|].
  apply (Hfree f Hu), reserved_fields_spec. by exists core.
Qed.

Lemma disjoint_reserved (user_model : model) :
  Forall (disjoint_fields user_model) core_models ->
  forall f, f ∈ model_fields user_model -> f ∉ reserved_fields.
Proof.
  intros Hd f Hu (core & Hcore & Hc)%reserved_fields_spec.
  by apply (proj1 (Forall_forall _ _) Hd core Hcore f).
Qed.

(** X13: [build_scoped_models] returns its four models exactly when the
    user model declares none of the seventeen field names of the core
    models.  The models it returns are named after the user model followed
    by the name of the core model and the suffix (which repeats that name),
    allow extra attributes, and have the fields of the user model and of
    their core model.  When it raises, the error names the conflicts with
    one core model only, the first in the order [Resource],
    [MemoryCategory], [MemoryItem], [CategoryItem] that has any. *)
Theorem build_scoped_models_spec (user_model : model) :
  ((exists ms, build_scoped_models user_model = Ok ms)
   <-> forall f, f ∈ model_fields user_model -> f ∉ reserved_fields)
  /\ (forall resource category item link,
        build_scoped_models user_model = Ok (resource, category, item, link) ->
        map model_name [resource; category; item; link]
        = map (fun s => model_name user_model +:+ s)
            ["ResourceResource"; "MemoryCategoryMemoryCategory";
             "MemoryItemMemoryItem"; "CategoryItemCategoryItem"]%string
        /\ Forall (fun m => model_extra m = ExtraAllow)
             [resource; category; item; link]
        /\ Forall2 (fun m core =>
                      forall f, f ∈ model_fields m
                                <-> f ∈ model_fields user_model
                                    \/ f ∈ model_fields core)
             [resource; category; item; link] core_models)
  /\ (forall e,
        build_scoped_models user_model = Raise e ->
        exists earlier core later names,
          core_models = earlier ++ core :: later
          /\ Forall (disjoint_fields user_model) earlier
          /\ e = TypeError (conflict_msg names)
          /\ names <> []
          /\ forall f, f ∈ names
                       <-> f ∈ model_fields user_model
                           /\ f ∈ model_fields core).
Proof.
  unfold build_scoped_models.
  destruct (merge_scope_model_cases user_model Resource "Resource")
    as [[D1 ->]|(n1 & -> & Hn1 & Hf1)]; cbn [mbind result_bind].
  2: { split; [|split].
       - split; [by intros [? ?]|]. intros Hfree.
         destruct (conflict_reserved user_model Resource n1); try done.
         by repeat constructor.
       - done.
       - intros e [= <-]. exists [], Resource, (tail core_models), n1.
         repeat split; try done; by apply Hf1. }
  destruct (merge_scope_model_cases user_model MemoryCategory "MemoryCategory")
    as [[D2 ->]|(n2 & -> & Hn2 & Hf2)]; cbn [mbind result_bind].
  2: { split; [|split].
       - split; [by intros [? ?]|]. intros Hfree.
         destruct (conflict_reserved user_model MemoryCategory n2); try done.
         by repeat constructor.
       - done.
       - intros e [= <-].
         exists [Resource], MemoryCategory, [MemoryItemModel; CategoryItem], n2.
         repeat split; try done; try (by apply Hf2). by repeat constructor. }
  destruct (merge_scope_model_cases user_model MemoryItemModel "MemoryItem")
    as [[D3 ->]|(n3 & -> & Hn3 & Hf3)]; cbn [mbind result_bind].
  2: { split; [|split].
       - split; [by intros [? ?]|]. intros Hfree.
         destruct (conflict_reserved user_model MemoryItemModel n3); try done.
         by repeat constructor.
       - done.
       - intros e [= <-].
         exists [Resource; MemoryCategory], MemoryItemModel, [CategoryItem], n3.
         repeat split; try done; try (by apply Hf3). by repeat constructor. }
  destruct (merge_scope_model_cases user_model CategoryItem "CategoryItem")
    as [[D4 ->]|(n4 & -> & Hn4 & Hf4)]; cbn [mbind result_bind].
  2: { split; [|split].
       - split; [by intros [? ?]|]. intros Hfree.
         destruct (conflict_reserved user_model CategoryItem n4); try done.
         by repeat constructor.
       - done.
       - intros e [= <-].
         exists [Resource; MemoryCategory; MemoryItemModel], CategoryItem, [], n4.
         repeat split; try done; try (by apply Hf4). by repeat constructor. }
  split; [|split; [|done]].
  - split; [|by eexists]. intros _. apply disjoint_reserved.
    by repeat constructor.
  - intros resource category item link [= <- <- <- <-].
    split; [done|]. split; [by repeat constructor|].
    constructor;
      [intros f; apply (merged_fields _ (model_fields Resource))|].
    constructor;
      [intros f; apply (merged_fields _ (model_fields MemoryCategory))|].
    constructor;
      [intros f; apply (merged_fields _ (model_fields MemoryItemModel))|].
    constructor;
      [intros f; apply (merged_fields _ (model_fields CategoryItem))|].
    constructor.
Qed.


(** ** Ledgers that are not lists, and the hash that is stored *)


(** X16: when [add_tool_call] stores a result that came without a hash, the
    entry it appends is the dump of that result with [call_hash] set to the
    MD5 digest that [generate_hash] computes for it, 32 hexadecimal
    characters; the result itself carries the same hash afterwards, and
    [generate_hash] on it still returns that hash. *)
Theorem add_tool_call_stores_hash (item item' : MemoryItem.t)
    (tool_call tool_call' : ToolCallResult.t) (l : list value) :
  add_tool_call item tool_call = (Ok tt, item', tool_call') ->
  ToolCallResult.call_hash tool_call = EmptyString ->
  get_tool_calls item = VList l ->
  exists h,
    generate_hash tool_call = Ok h
    /\ String.length h = 32%nat /\ Hashlib.all_hex h = true
    /\ tool_call' = ToolCallResult.set_call_hash h tool_call
    /\ get_tool_calls item'
       = VList (l ++ [model_dump (ToolCallResult.set_call_hash h tool_call)])
    /\ generate_hash tool_call' = Ok (ToolCallResult.call_hash tool_call').
Proof.
  intros Hadd Hempty Hget.
  destruct (add_tool_call_ok_inv _ _ _ _ Hadd) as (_ & Hens & l' & Hl & ->).
  rewrite Hget in Hl. injection Hl as <-.
  unfold ensure_hash in Hens. rewrite Hempty in Hens. cbn [String.eqb] in Hens.
  destruct (generate_hash tool_call) as [h|e] eqn:Hh; [|done].
  injection Hens as <-. exists h.
  destruct (generate_hash_ok _ _ Hh) as (Hlen & Hhex & _).
  split; [done|]. split; [done|]. split; [done|]. split; [done|].
  split; [by rewrite get_tool_calls_set|].
  rewrite generate_hash_set_call_hash, Hh. by destruct tool_call.
Qed.
End Memu.

(** * Closed instances

    The statements below run the definitions on concrete inputs;
    [json.dumps] prints floats with [decimal_repr]. *)

(** ** Test vectors of the digests *)

Example sha256_constants :
  length Hashlib.sha256_K = 64%nat
  /\ nth 0 Hashlib.sha256_K 0 = 0x428a2f98
  /\ nth 63 Hashlib.sha256_K 0 = 0xc67178f2
  /\ Hashlib.sha256_init.2 = 0x5be0cd19.
Proof. repeat split; by vm_compute. Qed.

Example sha256_abc :
  Hashlib.sha256_hexdigest (PyStr.encode "abc")
  = "ba7816bf8f01cfea414140de5dae2223b00361a396177a9cb410ff61f20015ad"%string.
Proof. by vm_compute. Qed.

Example sha256_two_blocks :
  Hashlib.sha256_hexdigest (PyStr.encode (letters 64))
  = "ffe054fe7ae0cb6dc65c3af9b61d5209f439851db43d0ba5997337df154668eb"%string.
Proof. by vm_compute. Qed.

Example md5_empty :
  Hashlib.md5_hexdigest [] = "d41d8cd98f00b204e9800998ecf8427e"%string.
Proof. by vm_compute. Qed.

Example md5_abc :
  Hashlib.md5_hexdigest (PyStr.encode "abc")
  = "900150983cd24fb0d6963f7d28e17f72"%string.
Proof. by vm_compute. Qed.

Example md5_two_blocks :
  Hashlib.md5_hexdigest (PyStr.encode (letters 56))
  = "3b0c8ac703f828b04c6c197006d17218"%string.
Proof. by vm_compute. Qed.

(** ** Examples of the design document and of the test suite *)

Example content_hash_coffee :
  compute_content_hash "I love coffee" "profile" = "95462f38f6f41326"%string
  /\ compute_content_hash "I  love   coffee" "profile"
     = "95462f38f6f41326"%string
  /\ compute_content_hash "I love Coffee" "profile"
     = "95462f38f6f41326"%string.
Proof. repeat split; by vm_compute. Qed.

Example generate_hash_calculator :
  generate_hash decimal_repr calculator_call
  = Ok "e19750e7b928f54d039d2e86158467e6"%string.
Proof. by vm_compute. Qed.

Example statistics_three_calls :
  get_tool_statistics (tool_item calc_calls) default_recent_n
  = Ok (mk_statistics 3 3 (267 # 1000) (6667 # 10000) (633 # 1000) 10).
Proof. by vm_compute. Qed.

Example add_tool_call_profile :
  add_tool_call decimal_repr profile_item (new_call "test" (InputStr "test") "test")
  = (Raise (ValueError "add_tool_call can only be used with tool type memories"),
     profile_item, new_call "test" (InputStr "test") "test").
Proof. by vm_compute. Qed.

Example merge_scope_model_two_conflicts :
  merge_scope_model (mk_model "Scope" ["id"; "user_id"; "created_at"]%string
                       ExtraIgnore)
    MemoryItemModel "MemoryItem"
  = Raise (TypeError
             "Scope fields conflict with core model fields: ['created_at', 'id']").
Proof. by vm_compute. Qed.

Example build_scoped_models_user :
  match build_scoped_models
          (mk_model "UserScope" ["user_id"]%string ExtraIgnore) with
  | Ok (resource, category, item, link) =>
      model_name item = "UserScopeMemoryItemMemoryItem"%string
      /\ model_extra resource = ExtraAllow
      /\ "user_id"%string ∈ model_fields link
      /\ "category_id"%string ∈ model_fields link
  | Raise _ => False
  end.
Proof. vm_compute. repeat split; repeat constructor. Qed.

Example json_dumps_nested :
  json_dumps decimal_repr
    (VDict [("k", VList [VInt 1; VBool true; VNone;
                         VDict [("b", VInt (-3)); ("a", VStr "x")]]);
            ("a", VDict [])]%string)
  = Ok ("{" +:+ json_quote "a" +:+ ": {}, " +:+ json_quote "k" +:+
        ": [1, true, null, {" +:+ json_quote "a" +:+ ": " +:+ json_quote "x" +:+
        ", " +:+ json_quote "b" +:+ ": -3}]}")%string.
Proof. by vm_compute. Qed.

Example statistics_negative_recent_n :
  get_tool_statistics (tool_item recent_n_calls) (-1)
  = Ok (mk_statistics 3 2 (1 # 10) 1 1 0).
Proof. by vm_compute. Qed.

(** ** MD5 digests collide *)

Lemma is_hex_char_elem (c : ascii) :
  Hashlib.is_hex_char c = true -> c ∈ Hashlib.hex_chars.
Proof.
  destruct c as [[] [] [] [] [] [] [] []]; intros H; try discriminate H;
    compute_done.
Qed.

Lemma hex_strings_complete (s : string) :
  Hashlib.all_hex s = true -> s ∈ Hashlib.hex_strings (String.length s).
Proof.
  induction s as [|c s IH]; intros H.
  { by apply list_elem_of_singleton. }
  cbn [Hashlib.all_hex] in H. apply andb_true_iff in H as [Hc Hs].
  cbn [String.length Hashlib.hex_strings].
  apply list_elem_of_In, in_flat_map. exists c.
  split; [by apply list_elem_of_In, is_hex_char_elem|].
  apply in_map, list_elem_of_In, IH, Hs.
Qed.

(** No function from the natural numbers to byte lists has pairwise
    different MD5 digests: there are finitely many digests. *)
Lemma md5_hexdigest_collides (f : nat -> list Z) :
  ~ (forall i j, i <> j ->
       Hashlib.md5_hexdigest (f i) <> Hashlib.md5_hexdigest (f j)).
Proof.
  intros Hinj.
  set (digests := Hashlib.hex_strings 32).
  set (images := map (fun i => Hashlib.md5_hexdigest (f i))
                     (seq 0 (S (length digests)))).
  assert (NoDup images) as Hnd.
  { apply NoDup_fmap_2_strong; [|apply NoDup_seq].
    intros i j _ _ Hij. destruct (decide (i = j)) as [|Hne]; [done|].
    by destruct (Hinj i j Hne). }
  assert (images ⊆ digests) as Hsub.
  { intros h [i [-> _]]%list_elem_of_fmap.
    unfold digests. rewrite <- (md5_hexdigest_length (f i)).
    apply hex_strings_complete, hex_all_hex. }
  pose proof (submseteq_length _ _ (NoDup_submseteq _ _ Hnd Hsub)) as Hlen.
  unfold images in Hlen. rewrite length_map, length_seq in Hlen. lia.
Qed.

Lemma letters_length (n : nat) : String.length (letters n) = n.
Proof. induction n as [|n IH]; [done|]. cbn. by rewrite IH. Qed.

Lemma letters_inj (i j : nat) : i <> j -> letters i <> letters j.
Proof.
  intros Hne H. apply Hne.
  by rewrite <- (letters_length i), <- (letters_length j), H.
Qed.

(** C7 (what fails): a mapping input and the string that is its
    serialization give the same hash although the inputs differ; and
    neither a change of [tool_name] alone nor a change of [output] alone
    always changes the hash. *)
Lemma generate_hash_not_sensitive :
  (let r1 := new_call "t" (InputDict [("a"%string, VInt 1)]) "o" in
   let r2 := new_call "t" (InputStr ("{" +:+ json_quote "a" +:+ ": 1}")) "o" in
   ToolCallResult.tool_name r1 = ToolCallResult.tool_name r2
   /\ ToolCallResult.output r1 = ToolCallResult.output r2
   /\ ToolCallResult.input r1 <> ToolCallResult.input r2
   /\ generate_hash decimal_repr r1 = generate_hash decimal_repr r2)
  /\ ~ (forall r1 r2,
          ToolCallResult.tool_name r1 <> ToolCallResult.tool_name r2 ->
          ToolCallResult.input r1 = ToolCallResult.input r2 ->
          ToolCallResult.output r1 = ToolCallResult.output r2 ->
          generate_hash decimal_repr r1 <> generate_hash decimal_repr r2)
  /\ ~ (forall r1 r2,
          ToolCallResult.output r1 <> ToolCallResult.output r2 ->
          ToolCallResult.tool_name r1 = ToolCallResult.tool_name r2 ->
          ToolCallResult.input r1 = ToolCallResult.input r2 ->
          generate_hash decimal_repr r1 <> generate_hash decimal_repr r2).
Proof.
  split; [|split].
  - split; [done|split; [done|split; [done|by vm_compute]]].
  - intros Hclaim.
    apply (md5_hexdigest_collides
             (fun i => PyStr.encode (combined (letters i) "" ""))).
    intros i j Hne Heq.
    apply (Hclaim (new_call (letters i) (InputStr "") "")
                  (new_call (letters j) (InputStr "") ""));
      [by apply letters_inj|done|done|].
    unfold generate_hash, input_str. cbn. by rewrite Heq.
  - intros Hclaim.
    apply (md5_hexdigest_collides
             (fun i => PyStr.encode (combined "" "" (letters i)))).
    intros i j Hne Heq.
    apply (Hclaim (new_call "" (InputStr "") (letters i))
                  (new_call "" (InputStr "") (letters j)));
      [by apply letters_inj|done|done|].
    unfold generate_hash, input_str. cbn. by rewrite Heq.
Qed.

(** ** The theorems at concrete inputs *)

Lemma content_hash_spec_witness :
  PyStr.all_space "" = true
  /\ PyStr.wf_parts [("I", " "); ("love", " "); ("coffee", "")]%string
  /\ PyStr.all_space "  " = true
  /\ PyStr.wf_parts [("i", "  "); ("LOVE", "   "); ("Coffee", " ")]%string
  /\ compute_content_hash
       (PyStr.layout "" [("I", " "); ("love", " "); ("coffee", "")]%string)
       "profile"
     = compute_content_hash
         (PyStr.layout "  "
            [("i", "  "); ("LOVE", "   "); ("Coffee", " ")]%string)
         "profile".
Proof.
  assert (PyStr.wf_parts [("I", " "); ("love", " "); ("coffee", "")]%string)
    as H1 by (cbn; repeat split; done).
  assert (PyStr.wf_parts
            [("i", "  "); ("LOVE", "   "); ("Coffee", " ")]%string)
    as H2 by (cbn; repeat split; done).
  split; [reflexivity|]. split; [exact H1|]. split; [reflexivity|].
  split; [exact H2|].
  apply (proj1 (proj2 (proj2 content_hash_spec)) "profile"%string);
    [reflexivity|exact H1|reflexivity|exact H2|reflexivity].
Defined.


Lemma ensure_hash_idempotent_witness :
  ToolCallResult.call_hash calculator_call = EmptyString
  /\ ensure_hash decimal_repr calculator_call
     = match generate_hash decimal_repr calculator_call with
       | Ok h => (Ok tt, ToolCallResult.set_call_hash h calculator_call)
       | Raise e => (Raise e, calculator_call)
       end.
Proof.
  split; [reflexivity|].
  apply (proj1 (ensure_hash_idempotent decimal_repr calculator_call)).
  reflexivity.
Defined.


Lemma ledger_writes_frame_witness :
  let r := add_tool_call decimal_repr (tool_item recent_n_calls) calculator_call in
  r.1.1 = Ok tt /\ unchanged_but_tool_calls (tool_item recent_n_calls) r.1.2.
Proof.
  intros r. assert (r.1.1 = Ok tt) as Hok by (vm_compute; reflexivity).
  split; [exact Hok|].
  apply (proj2 (ledger_writes_frame decimal_repr)
           (tool_item recent_n_calls) calculator_call r.1.2 r.2).
  rewrite <- Hok. unfold r.
  by destruct (add_tool_call _ _ _) as [[? ?] ?].
Defined.

Lemma empty_ledger_spec_witness :
  get_tool_calls profile_item = VList []
  /\ get_tool_statistics profile_item default_recent_n = Ok zero_statistics.
Proof.
  assert (get_tool_calls profile_item = VList []) as H by reflexivity.
  split; [exact H|].
  apply (proj1 (proj2 (proj2 (proj2 empty_ledger_spec)))), H.
Defined.


Lemma generate_hash_sensitivity_witness :
  "calculator"%string <> "calc"%string
  /\ PyStr.encode (combined "calculator" "1+1" "2")
     <> PyStr.encode (combined "calc" "1+1" "2").
Proof.
  assert ("calculator"%string <> "calc"%string) as Hne by discriminate.
  split; [exact Hne|].
  apply (proj1 (proj2 (proj2 (generate_hash_sensitivity decimal_repr)))), Hne.
Defined.

(** ** The further properties at concrete inputs *)



Lemma statistics_ranges_witness :
  get_tool_calls (tool_item calc_calls) = VList calc_calls
  /\ get_tool_statistics (tool_item calc_calls) 2
     = Ok (spec_statistics 3 (slice_from (- 2) calc_calls))
  /\ (0 <= success_rate (spec_statistics 3 (slice_from (- 2) calc_calls))
      /\ success_rate (spec_statistics 3 (slice_from (- 2) calc_calls)) <= 1)%Q.
Proof.
  assert (get_tool_statistics (tool_item calc_calls) 2
          = Ok (spec_statistics 3 (slice_from (- 2) calc_calls))) as Hst
    by (vm_compute; reflexivity).
  split; [reflexivity|]. split; [exact Hst|].
  exact (proj1 (proj2 (statistics_ranges (tool_item calc_calls) calc_calls 2 _
                         eq_refl Hst))).
Defined.







Lemma tool_calls_round_trip_witness :
  MemoryItem.extra profile_item = Some ∅
  /\ ((∅ : gmap string value) !! "tool_calls"%string
      = Some (get_tool_calls profile_item)
      /\ (forall v, (∅ : gmap string value) !! "tool_calls"%string = Some v ->
                    set_tool_calls profile_item v = profile_item)
      \/ (∅ : gmap string value) !! "tool_calls"%string = None
         /\ get_tool_calls profile_item = VList []).
Proof.
  split; [reflexivity|].
  exact (proj2 (proj2 tool_calls_round_trip) profile_item ∅ eq_refl).
Defined.

Lemma content_hash_of_normal_form_witness :
  PyStr.all_space "   " = true
  /\ normal_form "   " = EmptyString
  /\ compute_content_hash "   " "profile"
     = compute_content_hash EmptyString "profile".
Proof.
  split; [reflexivity|].
  exact (proj2 (proj2 (proj2 content_hash_of_normal_form)) "   "%string
           "profile"%string eq_refl).
Defined.

Lemma content_text_equal_iff_witness :
  no_colon "profile" = true
  /\ no_colon "event" = true
  /\ (PyStr.encode ("profile" +:+ ":" +:+ normal_form "I love coffee")
      = PyStr.encode ("event" +:+ ":" +:+ normal_form "I love coffee")
      <-> "profile"%string = "event"%string
          /\ map PyStr.lower (PyStr.split "I love coffee")
             = map PyStr.lower (PyStr.split "I love coffee")).
Proof.
  split; [reflexivity|]. split; [reflexivity|].
  exact (proj1 (proj2 content_text_equal_iff) "profile"%string "event"%string
           "I love coffee"%string "I love coffee"%string eq_refl eq_refl).
Defined.

Lemma build_scoped_models_spec_witness :
  let user_model := mk_model "UserScope" ["user_id"]%string ExtraIgnore in
  (forall f, f ∈ model_fields user_model -> f ∉ reserved_fields)
  /\ exists ms, build_scoped_models user_model = Ok ms.
Proof.
  intros user_model.
  assert (forall f, f ∈ model_fields user_model -> f ∉ reserved_fields) as Hfree.
  { intros f ->%list_elem_of_singleton.
    apply (bool_decide_unpack _). vm_compute. exact I. }
  split; [exact Hfree|].
  exact (proj2 (proj1 (build_scoped_models_spec user_model)) Hfree).
Defined.



Lemma add_tool_call_stores_hash_witness :
  let r := add_tool_call decimal_repr (tool_item []) calculator_call in
  r.1.1 = Ok tt
  /\ ToolCallResult.call_hash calculator_call = EmptyString
  /\ get_tool_calls (tool_item []) = VList []
  /\ exists h,
       generate_hash decimal_repr calculator_call = Ok h
       /\ String.length h = 32%nat /\ Hashlib.all_hex h = true
       /\ r.2 = ToolCallResult.set_call_hash h calculator_call
       /\ get_tool_calls r.1.2
          = VList ([] ++ [model_dump
                            (ToolCallResult.set_call_hash h calculator_call)])
       /\ generate_hash decimal_repr r.2 = Ok (ToolCallResult.call_hash r.2).
Proof.
  intros r. assert (r.1.1 = Ok tt) as Hok by (vm_compute; reflexivity).
  assert (add_tool_call decimal_repr (tool_item []) calculator_call
          = (Ok tt, r.1.2, r.2)) as Hadd.
  { rewrite <- Hok. unfold r. by destruct (add_tool_call _ _ _) as [[? ?] ?]. }
  split; [exact Hok|]. split; [reflexivity|]. split; [reflexivity|].
  exact (add_tool_call_stores_hash decimal_repr (tool_item []) r.1.2
           calculator_call r.2 [] Hadd eq_refl eq_refl).
Defined.
